(** * vpKeyPoint: configuration, match filtering, pose acceptance and
      persistence of the reference model

    A shallow embedding of [src/key-point/vpKeyPoint.h].  The inline member
    functions of the class are transcribed from the header; the members that
    the header only declares are modelled from the written specification and
    are marked as such. *)

From Stdlib Require Import ZArith QArith Qminmax List Bool String Ascii Lia.
From Stdlib Require Strings.Byte.
From Stdlib Require Import DecimalString DecimalZ DecimalPos.
From Stdlib Require Import Floats Uint63.
From stdpp Require Import base option list strings gmap fin_maps.

Local Open Scope string_scope.
Local Open Scope Z_scope.

(** ** Numbers of the C++ side *)

(** [double] is IEEE binary64, which is what the primitive floats are. *)
Abbreviation double := PrimFloat.float.

(** [std::numeric_limits<double>::epsilon()] *)
Definition DBL_EPSILON : double := 0x1p-52%float.

(** [a > b] on doubles, written as C++ writes it. *)
Definition fgt (a b : double) : bool := PrimFloat.ltb b a.
Definition flt (a b : double) : bool := PrimFloat.ltb a b.
Definition fle (a b : double) : bool := PrimFloat.leb a b.

(** ** Exceptions and the outcome of a member call *)

Inductive vpExceptionCode := badValue | fatalError.

Record vpException := mk_vpException {
  ex_code : vpExceptionCode;
  ex_msg : string
}.

Inductive result (A : Type) :=
| Ok (a : A)
| Throw (e : vpException).
Arguments Ok {A} a.
Arguments Throw {A} e.

Definition is_throw {A} (r : result A) : bool :=
  match r with Ok _ => false | Throw _ => true end.

(** ** The object state *)

Inductive vpFilterMatchingType :=
| constantFactorDistanceThreshold
| stdDistanceThreshold
| ratioDistanceThreshold
| stdAndRatioDistanceThreshold
| noFilterMatching.

Inductive vpDetectionMethodType := detectionThreshold | detectionScore.

(** [vpMatrix]: rows of doubles; [vpMatrix()] is the matrix without rows. *)
Definition vpMatrix := list (list double).
Definition vpMatrix_empty : vpMatrix := [].

(** A parameter value of a [cv::Algorithm]. *)
Inductive AlgorithmParam :=
| ParamBool (b : bool)
| ParamInt (i : Z)
| ParamDouble (d : double).

(** What [cv::Ptr<cv::DescriptorMatcher>] points to, as far as the class
    touches it: the named parameters written by [set]. *)
Record DescriptorMatcher := mk_DescriptorMatcher {
  matcher_params : gmap string AlgorithmParam
}.

Definition matcher_set (name : string) (v : AlgorithmParam) (m : DescriptorMatcher)
  : DescriptorMatcher :=
  {| matcher_params := <[name := v]> (matcher_params m) |}.

Record vpKeyPoint := mk_vpKeyPoint {
  m_computeCovariance : bool;
  m_covarianceMatrix : vpMatrix;
  m_detectionMethod : vpDetectionMethodType;
  m_filterType : vpFilterMatchingType;
  m_matcher : option DescriptorMatcher;      (* [None] is the NULL pointer *)
  m_matcherName : string;
  m_matchingFactorThreshold : double;
  m_matchingRatioThreshold : double;
  m_nbRansacIterations : Z;
  m_nbRansacMinInlierCount : Z;
  m_ransacConsensusPercentage : double;
  m_ransacReprojectionError : double;
  m_ransacThreshold : double;
  m_useBruteForceCrossCheck : bool;
  m_useConsensusPercentage : bool;
  m_useKnn : bool;
  m_useRansacVVS : bool
}.

(** Field assignments, one per member written below. *)
Definition set_m_computeCovariance (v : bool) (k : vpKeyPoint) : vpKeyPoint :=
  mk_vpKeyPoint v (m_covarianceMatrix k) (m_detectionMethod k) (m_filterType k)
    (m_matcher k) (m_matcherName k) (m_matchingFactorThreshold k)
    (m_matchingRatioThreshold k) (m_nbRansacIterations k) (m_nbRansacMinInlierCount k)
    (m_ransacConsensusPercentage k) (m_ransacReprojectionError k) (m_ransacThreshold k)
    (m_useBruteForceCrossCheck k) (m_useConsensusPercentage k) (m_useKnn k)
    (m_useRansacVVS k).

Definition set_m_covarianceMatrix (v : vpMatrix) (k : vpKeyPoint) : vpKeyPoint :=
  mk_vpKeyPoint (m_computeCovariance k) v (m_detectionMethod k) (m_filterType k)
    (m_matcher k) (m_matcherName k) (m_matchingFactorThreshold k)
    (m_matchingRatioThreshold k) (m_nbRansacIterations k) (m_nbRansacMinInlierCount k)
    (m_ransacConsensusPercentage k) (m_ransacReprojectionError k) (m_ransacThreshold k)
    (m_useBruteForceCrossCheck k) (m_useConsensusPercentage k) (m_useKnn k)
    (m_useRansacVVS k).

Definition set_m_matcherName (v : string) (k : vpKeyPoint) : vpKeyPoint :=
  mk_vpKeyPoint (m_computeCovariance k) (m_covarianceMatrix k) (m_detectionMethod k)
    (m_filterType k) (m_matcher k) v (m_matchingFactorThreshold k)
    (m_matchingRatioThreshold k) (m_nbRansacIterations k) (m_nbRansacMinInlierCount k)
    (m_ransacConsensusPercentage k) (m_ransacReprojectionError k) (m_ransacThreshold k)
    (m_useBruteForceCrossCheck k) (m_useConsensusPercentage k) (m_useKnn k)
    (m_useRansacVVS k).

Definition set_m_filterType (v : vpFilterMatchingType) (k : vpKeyPoint) : vpKeyPoint :=
  mk_vpKeyPoint (m_computeCovariance k) (m_covarianceMatrix k) (m_detectionMethod k) v
    (m_matcher k) (m_matcherName k) (m_matchingFactorThreshold k)
    (m_matchingRatioThreshold k) (m_nbRansacIterations k) (m_nbRansacMinInlierCount k)
    (m_ransacConsensusPercentage k) (m_ransacReprojectionError k) (m_ransacThreshold k)
    (m_useBruteForceCrossCheck k) (m_useConsensusPercentage k) (m_useKnn k)
    (m_useRansacVVS k).

Definition set_m_matcher (v : option DescriptorMatcher) (k : vpKeyPoint) : vpKeyPoint :=
  mk_vpKeyPoint (m_computeCovariance k) (m_covarianceMatrix k) (m_detectionMethod k)
    (m_filterType k) v (m_matcherName k) (m_matchingFactorThreshold k)
    (m_matchingRatioThreshold k) (m_nbRansacIterations k) (m_nbRansacMinInlierCount k)
    (m_ransacConsensusPercentage k) (m_ransacReprojectionError k) (m_ransacThreshold k)
    (m_useBruteForceCrossCheck k) (m_useConsensusPercentage k) (m_useKnn k)
    (m_useRansacVVS k).

Definition set_m_matchingFactorThreshold (v : double) (k : vpKeyPoint) : vpKeyPoint :=
  mk_vpKeyPoint (m_computeCovariance k) (m_covarianceMatrix k) (m_detectionMethod k)
    (m_filterType k) (m_matcher k) (m_matcherName k) v
    (m_matchingRatioThreshold k) (m_nbRansacIterations k) (m_nbRansacMinInlierCount k)
    (m_ransacConsensusPercentage k) (m_ransacReprojectionError k) (m_ransacThreshold k)
    (m_useBruteForceCrossCheck k) (m_useConsensusPercentage k) (m_useKnn k)
    (m_useRansacVVS k).

Definition set_m_matchingRatioThreshold (v : double) (k : vpKeyPoint) : vpKeyPoint :=
  mk_vpKeyPoint (m_computeCovariance k) (m_covarianceMatrix k) (m_detectionMethod k)
    (m_filterType k) (m_matcher k) (m_matcherName k) (m_matchingFactorThreshold k)
    v (m_nbRansacIterations k) (m_nbRansacMinInlierCount k)
    (m_ransacConsensusPercentage k) (m_ransacReprojectionError k) (m_ransacThreshold k)
    (m_useBruteForceCrossCheck k) (m_useConsensusPercentage k) (m_useKnn k)
    (m_useRansacVVS k).

Definition set_m_nbRansacIterations (v : Z) (k : vpKeyPoint) : vpKeyPoint :=
  mk_vpKeyPoint (m_computeCovariance k) (m_covarianceMatrix k) (m_detectionMethod k)
    (m_filterType k) (m_matcher k) (m_matcherName k) (m_matchingFactorThreshold k)
    (m_matchingRatioThreshold k) v (m_nbRansacMinInlierCount k)
    (m_ransacConsensusPercentage k) (m_ransacReprojectionError k) (m_ransacThreshold k)
    (m_useBruteForceCrossCheck k) (m_useConsensusPercentage k) (m_useKnn k)
    (m_useRansacVVS k).

Definition set_m_nbRansacMinInlierCount (v : Z) (k : vpKeyPoint) : vpKeyPoint :=
  mk_vpKeyPoint (m_computeCovariance k) (m_covarianceMatrix k) (m_detectionMethod k)
    (m_filterType k) (m_matcher k) (m_matcherName k) (m_matchingFactorThreshold k)
    (m_matchingRatioThreshold k) (m_nbRansacIterations k) v
    (m_ransacConsensusPercentage k) (m_ransacReprojectionError k) (m_ransacThreshold k)
    (m_useBruteForceCrossCheck k) (m_useConsensusPercentage k) (m_useKnn k)
    (m_useRansacVVS k).

Definition set_m_ransacReprojectionError (v : double) (k : vpKeyPoint) : vpKeyPoint :=
  mk_vpKeyPoint (m_computeCovariance k) (m_covarianceMatrix k) (m_detectionMethod k)
    (m_filterType k) (m_matcher k) (m_matcherName k) (m_matchingFactorThreshold k)
    (m_matchingRatioThreshold k) (m_nbRansacIterations k) (m_nbRansacMinInlierCount k)
    (m_ransacConsensusPercentage k) v (m_ransacThreshold k)
    (m_useBruteForceCrossCheck k) (m_useConsensusPercentage k) (m_useKnn k)
    (m_useRansacVVS k).

Definition set_m_ransacThreshold (v : double) (k : vpKeyPoint) : vpKeyPoint :=
  mk_vpKeyPoint (m_computeCovariance k) (m_covarianceMatrix k) (m_detectionMethod k)
    (m_filterType k) (m_matcher k) (m_matcherName k) (m_matchingFactorThreshold k)
    (m_matchingRatioThreshold k) (m_nbRansacIterations k) (m_nbRansacMinInlierCount k)
    (m_ransacConsensusPercentage k) (m_ransacReprojectionError k) v
    (m_useBruteForceCrossCheck k) (m_useConsensusPercentage k) (m_useKnn k)
    (m_useRansacVVS k).

Definition set_m_useConsensusPercentage (v : bool) (k : vpKeyPoint) : vpKeyPoint :=
  mk_vpKeyPoint (m_computeCovariance k) (m_covarianceMatrix k) (m_detectionMethod k)
    (m_filterType k) (m_matcher k) (m_matcherName k) (m_matchingFactorThreshold k)
    (m_matchingRatioThreshold k) (m_nbRansacIterations k) (m_nbRansacMinInlierCount k)
    (m_ransacConsensusPercentage k) (m_ransacReprojectionError k) (m_ransacThreshold k)
    (m_useBruteForceCrossCheck k) v (m_useKnn k)
    (m_useRansacVVS k).

Definition set_m_useKnn (v : bool) (k : vpKeyPoint) : vpKeyPoint :=
  mk_vpKeyPoint (m_computeCovariance k) (m_covarianceMatrix k) (m_detectionMethod k)
    (m_filterType k) (m_matcher k) (m_matcherName k) (m_matchingFactorThreshold k)
    (m_matchingRatioThreshold k) (m_nbRansacIterations k) (m_nbRansacMinInlierCount k)
    (m_ransacConsensusPercentage k) (m_ransacReprojectionError k) (m_ransacThreshold k)
    (m_useBruteForceCrossCheck k) (m_useConsensusPercentage k) v
    (m_useRansacVVS k).

Definition set_m_useRansacVVS (v : bool) (k : vpKeyPoint) : vpKeyPoint :=
  mk_vpKeyPoint (m_computeCovariance k) (m_covarianceMatrix k) (m_detectionMethod k)
    (m_filterType k) (m_matcher k) (m_matcherName k) (m_matchingFactorThreshold k)
    (m_matchingRatioThreshold k) (m_nbRansacIterations k) (m_nbRansacMinInlierCount k)
    (m_ransacConsensusPercentage k) (m_ransacReprojectionError k) (m_ransacThreshold k)
    (m_useBruteForceCrossCheck k) (m_useConsensusPercentage k) (m_useKnn k)
    v.

(** ** Member calls

    A call of a member function on the object [k] yields what it returns (or
    the exception it throws), the object after the call, and the lines it
    wrote to [std::cout]. *)

Record outcome (A : Type) := mk_outcome {
  ret : result A;
  self_after : vpKeyPoint;
  cout : list string
}.
Arguments mk_outcome {A} _ _ _.
Arguments ret {A} _.
Arguments self_after {A} _.
Arguments cout {A} _.

Definition method (A : Type) := vpKeyPoint -> outcome A.

#[global] Instance method_ret : MRet method :=
  fun A a k => mk_outcome (Ok a) k [].

#[global] Instance method_bind : MBind method :=
  fun A B f m k =>
    let o := m k in
    match ret o with
    | Ok a =>
        let o' := f a (self_after o) in
        mk_outcome (ret o') (self_after o') (cout o ++ cout o')
    | Throw e => mk_outcome (Throw e) (self_after o) (cout o)
    end.

(** [throw vpException(c, msg)] *)
Definition mthrow {A} (c : vpExceptionCode) (msg : string) : method A :=
  fun k => mk_outcome (Throw (mk_vpException c msg)) k [].
(** [std::cout << ... << std::endl], one string per line *)
Definition mprint (lines : list string) : method unit :=
  fun k => mk_outcome (Ok tt) k lines.
(** reading and writing members of [*this] *)
Definition mget : method vpKeyPoint := fun k => mk_outcome (Ok k) k [].
Definition massign (f : vpKeyPoint -> vpKeyPoint) : method unit :=
  fun k => mk_outcome (Ok tt) (f k) [].

(** *** Inline members of the header *)

Definition warn_not_computed : string :=
  "Warning : The covariance matrix has not been computed. See setCovarianceComputation() to do it.".
Definition warn_vvs_only : string :=
  "Warning : The covariance matrix can only be computed with a Virtual Visual Servoing approach.".
Definition warn_vvs_hint : string :=
  "Use setUseRansacVVS(true) to choose to use a pose estimation method based on a Virtual Visual Servoing approach.".

Definition getCovarianceMatrix : method vpMatrix :=
  k ← mget;
  if negb (m_computeCovariance k) then
    mprint [warn_not_computed];; mret vpMatrix_empty
  else if m_computeCovariance k && negb (m_useRansacVVS k) then
    mprint [warn_vvs_only; warn_vvs_hint];; mret vpMatrix_empty
  else
    mret (m_covarianceMatrix k).

Definition setCovarianceComputation (flag : bool) : method unit :=
  massign (set_m_computeCovariance flag);;
  k ← mget;
  if negb (m_useRansacVVS k) then mprint [warn_vvs_only; warn_vvs_hint]
  else mret tt.

Definition setFilterMatchingType (filterType : vpFilterMatchingType) : method unit :=
  massign (set_m_filterType filterType);;
  match filterType with
  | ratioDistanceThreshold | stdAndRatioDistanceThreshold =>
      massign (set_m_useKnn true)
  | _ => massign (set_m_useKnn false)
  end.

Definition setMatchingFactorThreshold (factor : double) : method unit :=
  if fgt factor 0%float then massign (set_m_matchingFactorThreshold factor)
  else mthrow badValue "The factor must be positive.".

Definition setMatchingRatioThreshold (ratio : double) : method unit :=
  if fgt ratio 0%float
     && (flt ratio 1%float
         || flt (PrimFloat.abs (PrimFloat.sub ratio 1%float)) DBL_EPSILON)
  then massign (set_m_matchingRatioThreshold ratio)
  else mthrow badValue "The ratio must be in the interval ]0 ; 1].".

Definition setRansacIteration (nbIter : Z) : method unit :=
  if 0 <? nbIter then massign (set_m_nbRansacIterations nbIter)
  else mthrow badValue "The number of iterations must be greater than zero.".

Definition setRansacReprojectionError (reprojectionError : double) : method unit :=
  if fgt reprojectionError 0%float
  then massign (set_m_ransacReprojectionError reprojectionError)
  else mthrow badValue
         "The Ransac reprojection threshold must be positive as we deal with distance.".

Definition setRansacMinInlierCount (minCount : Z) : method unit :=
  if 0 <? minCount then massign (set_m_nbRansacMinInlierCount minCount)
  else mthrow badValue "The minimum number of inliers must be greater than zero.".

Definition setRansacThreshold (threshold : double) : method unit :=
  if fgt threshold 0%float then massign (set_m_ransacThreshold threshold)
  else mthrow badValue "The Ransac threshold must be positive as we deal with distance.".

Definition setUseBruteForceCrossCheck (useCrossCheck : bool) : method unit :=
  k ← mget;
  match m_matcher k with
  | Some m =>
      if negb (m_useKnn k) && String.eqb (m_matcherName k) "BruteForce" then
        massign (set_m_matcher
                   (Some (matcher_set "crossCheck" (ParamBool useCrossCheck) m)))
      else mret tt
  | None => mret tt
  end.

Definition setUseRansacConsensusPercentage (usePercentage : bool) : method unit :=
  massign (set_m_useConsensusPercentage usePercentage).

Definition setUseRansacVVS (ransacVVS : bool) : method unit :=
  massign (set_m_useRansacVVS ransacVVS).

(** ** Errors of the pipeline stages

    The members below are declared in the header; their bodies are not part
    of the sources at hand.  They are modelled from the written specification,
    with its error taxonomy. *)

Inductive Error :=
| SizeMismatchError
| InvalidParameterError
| PreconditionError
| InsufficientCorrespondencesError
| PoseNotFoundError
| NoMatchesError
| CorruptFormatError.

Inductive Result (A : Type) :=
| Done (a : A)
| Fail (e : Error).
Arguments Done {A} a.
Arguments Fail {A} e.

Definition succeeded {A} (r : Result A) : bool :=
  match r with Done _ => true | Fail _ => false end.

(** ** Match filter *)

(** Modelled from the spec: a raw match (the data of [m_matches] and
    [m_knnMatches], whose use is in the missing body of [filterMatches]):
    query index, train index, distance to the nearest train descriptor and,
    when the two-nearest-neighbour pass found one, the distance to the second
    nearest.  Distances, factor and ratio are exact rationals here. *)
Record Correspondence := mk_Correspondence {
  queryIdx : Z;
  trainIdx : Z;
  distance : Q;
  distance2 : option Q
}.

(** Modelled from the spec: the raw matches of one query, with whether the
    two-nearest-neighbour pass was run to produce them. *)
Record RawMatches := mk_RawMatches {
  knnPass : bool;                      (* was the k=2 matching pass run? *)
  rawMatches : list Correspondence
}.

Definition Qltb (a b : Q) : bool := negb (Qle_bool b a).

Section MatchFilter.

(** The standard deviation of a list of distances takes a square root, which
    the rationals do not have: it is supplied by the numeric library. *)
Variable stddev : list Q -> Q.

(** Modelled from the spec: the minimum distance over the raw matches
    ([filterMatches] is only declared in the header). *)
Definition min_distance (l : list Correspondence) : Q :=
  match l with
  | [] => 0%Q
  | m :: l' => fold_left Qmin (map distance l') (distance m)
  end.

(** Modelled from the spec: the keep condition of the constant-factor policy
    of [filterMatches], [distance < dmin * factor]. *)
Definition keep_constantFactor (raw : list Correspondence) (factor : Q)
    (m : Correspondence) : bool :=
  Qltb (distance m) (min_distance raw * factor)%Q.

(** Modelled from the spec: the keep condition of the standard-deviation
    policy of [filterMatches], [distance < dmin + stddev(all distances)]. *)
Definition keep_std (raw : list Correspondence) (m : Correspondence) : bool :=
  Qltb (distance m) (min_distance raw + stddev (map distance raw))%Q.

(** Modelled from the spec: the keep condition of the ratio policy of
    [filterMatches], [distance_1 / distance_2 < ratio] for a match with two
    neighbours (the quotient is the rationals', zero for a zero divisor). *)
Definition keep_ratio (ratio : Q) (m : Correspondence) : bool :=
  match distance2 m with
  | Some d2 => Qltb (distance m / d2)%Q ratio
  | None => false
  end.

(** Modelled from the spec: the ratio of [filterMatches] must lie in ]0 ; 1]. *)
Definition ratio_in_range (ratio : Q) : bool :=
  Qltb 0%Q ratio && Qle_bool ratio 1%Q.

(** Modelled from the spec: [filterMatches], the contract
    [filter(rawMatches, policy, factor, ratio)] of the Match Filter; the
    header declares it without a body.  The combined policy has the checks of
    the ratio policy, whose condition it uses. *)
Definition filterMatches (raw : RawMatches) (policy : vpFilterMatchingType)
    (factor ratio : Q) : Result (list Correspondence) :=
  let l := rawMatches raw in
  match policy with
  | constantFactorDistanceThreshold =>
      if Qltb 0%Q factor
      then Done (List.filter (keep_constantFactor l factor) l)
      else Fail InvalidParameterError
  | stdDistanceThreshold =>
      Done (List.filter (keep_std l) l)
  | ratioDistanceThreshold =>
      if negb (ratio_in_range ratio) then Fail InvalidParameterError
      else if negb (knnPass raw) then Fail PreconditionError
      else Done (List.filter (keep_ratio ratio) l)
  | stdAndRatioDistanceThreshold =>
      if negb (ratio_in_range ratio) then Fail InvalidParameterError
      else if negb (knnPass raw) then Fail PreconditionError
      else Done (List.filter (fun m => keep_std l m || keep_ratio ratio m) l)
  | noFilterMatching => Done l
  end.

End MatchFilter.

(** A rational stand-in for the standard deviation, used to run the filter:
    the square root of the variance, to three decimals. *)
Definition Qmean (l : list Q) : Q :=
  (fold_right Qplus 0 l / inject_Z (Z.of_nat (length l)))%Q.

Definition Qvariance (l : list Q) : Q :=
  (fold_right Qplus 0 (map (fun x => x * x) l) / inject_Z (Z.of_nat (length l))
   - Qmean l * Qmean l)%Q.

Definition stddev_milli (l : list Q) : Q :=
  let v := Qvariance l in
  (inject_Z (Z.sqrt (Qnum v * 1000000 / Z.pos (Qden v))) / 1000)%Q.

(** ** Pose estimator (RANSAC and refinement) *)

(** The minimal sample of a perspective pose. *)
Definition minimalSampleSize : nat := 4.

Section PoseEstimator.

(** A correspondence here is a pair of a 2-D query point and a 3-D object
    point; a pose is a rigid transform.  The geometry is the numeric
    library's: the minimal solver, the two error measures, the refinement
    and its covariance, and the seeded generator that draws a minimal
    subset. *)
Variables (Pair Pose Seed : Type).
Variable solvePose : list Pair -> option Pose.
Variable reprojectionError : Pose -> Pair -> double.   (* pixels *)
Variable geometricError : Pose -> Pair -> double.      (* metres *)
Variable refinePose : Pose -> list Pair -> Pose.
Variable poseCovariance : Pose -> list Pair -> vpMatrix.
Variable drawSubset : Seed -> list Pair -> list Pair * Seed.

(** Modelled from the spec: the Pose Result that [getPose] produces. *)
Record PoseResult := mk_PoseResult {
  cMo : Pose;
  inliers : list Pair;
  outliers : list Pair;
  covariance : option vpMatrix
}.

(** Modelled from the spec: the score of a candidate counts the
    correspondences whose error is below [reprojectionError] (pixels) or,
    in the geometry-space variant, below [ransacThreshold] (metres). *)
Definition isInlier (k : vpKeyPoint) (p : Pose) (c : Pair) : bool :=
  if m_useRansacVVS k
  then flt (geometricError p c) (m_ransacThreshold k)
  else flt (reprojectionError p c) (m_ransacReprojectionError k).

(** Modelled from the spec: the inlier count of a candidate in [getPose]. *)
Definition countInliers (k : vpKeyPoint) (p : Pose) (l : list Pair) : nat :=
  length (List.filter (isInlier k p) l).

(** Modelled from the spec: the sampling loop of [getPose], bounded by the
    iteration count; the best candidate so far is replaced only by a strictly better
    one, so that the first of equally scored candidates is kept. *)
Fixpoint samplingLoop (k : vpKeyPoint) (iterations : nat) (seed : Seed)
    (l : list Pair) (best : option (Pose * nat)) : option (Pose * nat) :=
  match iterations with
  | O => best
  | S n =>
      let (subset, seed') := drawSubset seed l in
      let best' :=
        match solvePose subset with
        | None => best
        | Some p =>
            let score := countInliers k p l in
            match best with
            | None => Some (p, score)
            | Some (_, bestScore) =>
                if (bestScore <? score)%nat then Some (p, score) else best
            end
        end in
      samplingLoop k n seed' l best'
  end.

(** The score kept with a candidate is the inlier count of that candidate. *)
Definition scoredCandidate (k : vpKeyPoint) (l : list Pair)
    (b : option (Pose * nat)) : Prop :=
  match b with
  | Some (p, n) => n = countInliers k p l
  | None => True
  end.

(** The best candidate of a run and its score (no candidate scores 0). *)
Definition bestCandidate (k : vpKeyPoint) (seed : Seed) (l : list Pair)
  : option (Pose * nat) :=
  if (length l <? minimalSampleSize)%nat then None
  else samplingLoop k (Z.to_nat (m_nbRansacIterations k)) seed l None.

Definition bestInlierCount (k : vpKeyPoint) (seed : Seed) (l : list Pair) : nat :=
  match bestCandidate k seed l with
  | Some (_, n) => n
  | None => O
  end.

(** a count as a double *)
Definition nat_to_double (n : nat) : double :=
  PrimFloat.of_uint63 (Uint63.of_Z (Z.of_nat n)).

(** Modelled from the spec: the consensus criterion of [getPose], an absolute
    floor [minInlierCount] or a floor derived as
    [consensusPercentage * totalCorrespondences], whichever policy is active. *)
Definition meetsConsensus (k : vpKeyPoint) (score total : nat) : bool :=
  if m_useConsensusPercentage k
  then fle (PrimFloat.mul (m_ransacConsensusPercentage k) (nat_to_double total))
           (nat_to_double score)
  else m_nbRansacMinInlierCount k <=? Z.of_nat score.

(** Modelled from the spec: [getPose], which the header declares without a
    body: the state machine Init, sampling loop, acceptance, optional
    refinement, terminal.  The configuration is read from the object. *)
Definition getPose (k : vpKeyPoint) (seed : Seed) (l : list Pair)
  : Result PoseResult :=
  if (length l <? minimalSampleSize)%nat then Fail InsufficientCorrespondencesError
  else
    match samplingLoop k (Z.to_nat (m_nbRansacIterations k)) seed l None with
    | None => Fail PoseNotFoundError
    | Some (p, score) =>
        if meetsConsensus k score (length l) then
          let ins := List.filter (isInlier k p) l in
          let outs := List.filter (fun c => negb (isInlier k p c)) l in
          if m_useRansacVVS k then
            let p' := refinePose p ins in
            Done (mk_PoseResult p' ins outs
                    (if m_computeCovariance k
                     then Some (poseCovariance p' ins) else None))
          else Done (mk_PoseResult p ins outs None)
        else Fail PoseNotFoundError
    end.

End PoseEstimator.

Arguments cMo {Pair Pose} _.
Arguments inliers {Pair Pose} _.
Arguments outliers {Pair Pose} _.
Arguments covariance {Pair Pose} _.
Arguments isInlier {Pair Pose} _ _ _ _ _.
Arguments countInliers {Pair Pose} _ _ _ _ _.
Arguments scoredCandidate {Pair Pose} _ _ _ _ _.
Arguments samplingLoop {Pair Pose Seed} _ _ _ _ _ _ _ _ _.
Arguments bestCandidate {Pair Pose Seed} _ _ _ _ _ _ _.
Arguments bestInlierCount {Pair Pose Seed} _ _ _ _ _ _ _.
Arguments getPose {Pair Pose Seed} _ _ _ _ _ _ _ _ _.

(** ** Reference Model Store

    The header declares the train members ([m_trainKeyPoints],
    [m_trainDescriptors], [m_trainPoints], [m_mapOfImageId], [m_mapOfImages])
    and the members that write, save and load them, without their bodies. *)

(** A single-precision value is kept as its IEEE binary32 bit pattern, a
    32-bit integer. *)
Definition float32 := Z.

Definition in_u8 (z : Z) : bool := (0 <=? z) && (z <? 256).
Definition in_u32 (z : Z) : bool := (0 <=? z) && (z <? 2 ^ 32).
Definition in_int32 (z : Z) : bool := (- 2 ^ 31 <=? z) && (z <? 2 ^ 31).

(** Modelled from the spec: a key point of the store, its 2-D position (what
    [cv::KeyPoint] holds besides is opaque to the store). *)
Record KeyPoint := mk_KeyPoint { pt_x : float32; pt_y : float32 }.

(** Modelled from the spec: an object point, 3-D in the object frame. *)
Record Point3f := mk_Point3f { p3_x : float32; p3_y : float32; p3_z : float32 }.

(** Modelled from the spec: the element type of the descriptor matrix, binary
    or floating point, with OpenCV's type codes. *)
Inductive DescriptorElementType := CV_8U | CV_32F.

Definition descriptorTypeCode (t : DescriptorElementType) : Z :=
  match t with CV_8U => 0 | CV_32F => 5 end.

Definition descriptorTypeOfCode (c : Z) : option DescriptorElementType :=
  if c =? 0 then Some CV_8U else if c =? 5 then Some CV_32F else None.

(** A training image, [vpImage<unsigned char>]. *)
Record TrainImage := mk_TrainImage {
  img_height : Z;
  img_width : Z;
  img_bitmap : list Z
}.

(** Modelled from the spec: the Reference Model Store, the train side of the
    object.  [m_trainImageIds] gives, for each train
    key point, the id of the training image it comes from (the class keeps
    them in [m_mapOfImageId], keyed by the index of the key point); an object
    point may be unset. *)
Record Store := mk_Store {
  m_trainKeyPoints : list KeyPoint;
  m_descriptorType : DescriptorElementType;
  m_trainDescriptors : list (list Z);
  m_trainPoints : list (option Point3f);
  m_trainImageIds : list Z;
  m_mapOfImages : gmap Z TrainImage
}.

Definition emptyStore (t : DescriptorElementType) : Store :=
  mk_Store [] t [] [] [] ∅.

(** Modelled from the spec: [append(keypoints, descriptors, objectPoints?,
    imageId)] of the Reference Model Store, which is what
    [buildReference(I, trainKeyPoint, points3f, append)] does with the
    descriptors extracted from [I]; the body of [buildReference] is not part
    of the sources.  The call yields its result and the store after it. *)
Definition buildReference (trainKeyPoint : list KeyPoint)
    (trainDescriptors : list (list Z)) (points3f : option (list Point3f))
    (imageId : Z) (s : Store) : Result unit * Store :=
  if negb (length trainKeyPoint =? length trainDescriptors)%nat
  then (Fail SizeMismatchError, s)
  else
    match points3f with
    | Some pts =>
        if negb (length pts =? length trainKeyPoint)%nat
        then (Fail SizeMismatchError, s)
        else
          (Done tt,
           mk_Store (m_trainKeyPoints s ++ trainKeyPoint)
                    (m_descriptorType s)
                    (m_trainDescriptors s ++ trainDescriptors)
                    (m_trainPoints s ++ map Some pts)
                    (m_trainImageIds s ++ repeat imageId (length trainKeyPoint))
                    (m_mapOfImages s))
    | None =>
        (Done tt,
         mk_Store (m_trainKeyPoints s ++ trainKeyPoint)
                  (m_descriptorType s)
                  (m_trainDescriptors s ++ trainDescriptors)
                  (m_trainPoints s ++ repeat None (length trainKeyPoint))
                  (m_trainImageIds s ++ repeat imageId (length trainKeyPoint))
                  (m_mapOfImages s))
    end.

(** The three train collections are equally long. *)
Definition trainAligned (s : Store) : Prop :=
  length (m_trainDescriptors s) = length (m_trainKeyPoints s)
  /\ length (m_trainPoints s) = length (m_trainKeyPoints s).

(** A training batch, as the arguments of one [buildReference] call. *)
Record Batch := mk_Batch {
  batch_keyPoints : list KeyPoint;
  batch_descriptors : list (list Z);
  batch_points3f : option (list Point3f);
  batch_imageId : Z
}.

Definition buildReferenceBatch (b : Batch) (s : Store) : Result unit * Store :=
  buildReference (batch_keyPoints b) (batch_descriptors b) (batch_points3f b)
                 (batch_imageId b) s.


(** ** Persistence of the reference model *)

(** A parser over tokens [T] (bytes in binary mode, lines in text mode):
    it consumes a prefix of the input or fails. *)
Definition Parser (T A : Type) := list T -> option (A * list T).

#[global] Instance Parser_ret {T} : MRet (Parser T) :=
  fun A a ts => Some (a, ts).

#[global] Instance Parser_bind {T} : MBind (Parser T) :=
  fun A B f p ts =>
    match p ts with
    | Some (a, rest) => f a rest
    | None => None
    end.

Definition pfail {T A} : Parser T A := fun _ => None.
Definition pguard {T} (b : bool) : Parser T unit :=
  if b then mret tt else pfail.

Fixpoint get_n {T A} (n : nat) (get : Parser T A) : Parser T (list A) :=
  match n with
  | O => mret []
  | S n' => a ← get; l ← get_n n' get; mret (a :: l)
  end.

Definition put_list {T A} (put : A -> list T) (l : list A) : list T :=
  flat_map put l.

(** Modelled from the spec: how the scalar fields of the file are written and
    read in one mode of [saveLearningData] and [loadLearningData]. *)
Record Encoding (T : Type) := mk_Encoding {
  put_int : Z -> list T;      get_int : Parser T Z;
  put_u8 : Z -> list T;       get_u8 : Parser T Z;
  put_f32 : float32 -> list T; get_f32 : Parser T float32
}.
Arguments put_int {T} _ _.
Arguments get_int {T} _ _.
Arguments put_u8 {T} _ _.
Arguments get_u8 {T} _ _.
Arguments put_f32 {T} _ _.
Arguments get_f32 {T} _ _.

Definition formatVersion : Z := 1.

Definition descriptorWidth (s : Store) : nat :=
  match m_trainDescriptors s with
  | [] => O
  | row :: _ => length row
  end.

Definition has3DPoints (pts : list (option Point3f)) : bool :=
  existsb (fun p => match p with Some _ => true | None => false end) pts.

Definition Z_of_bool (b : bool) : Z := if b then 1 else 0.

Section Serialization.

Context {T : Type} (enc : Encoding T).

Definition put_bool (b : bool) : list T := put_int enc (Z_of_bool b).
Definition get_bool : Parser T bool :=
  z ← get_int enc;
  if z =? 0 then mret false else if z =? 1 then mret true else pfail.

Definition put_count (n : nat) : list T := put_int enc (Z.of_nat n).
Definition get_count : Parser T nat :=
  z ← get_int enc; pguard (0 <=? z);; mret (Z.to_nat z).

Definition put_element (t : DescriptorElementType) : Z -> list T :=
  match t with CV_8U => put_u8 enc | CV_32F => put_f32 enc end.
Definition get_element (t : DescriptorElementType) : Parser T Z :=
  match t with CV_8U => get_u8 enc | CV_32F => get_f32 enc end.

Definition put_keyPoint (kp : KeyPoint) : list T :=
  put_f32 enc (pt_x kp) ++ put_f32 enc (pt_y kp).
Definition get_keyPoint : Parser T KeyPoint :=
  x ← get_f32 enc; y ← get_f32 enc; mret (mk_KeyPoint x y).

Definition put_point (p : option Point3f) : list T :=
  match p with
  | Some q => put_bool true ++ put_f32 enc (p3_x q) ++ put_f32 enc (p3_y q)
              ++ put_f32 enc (p3_z q)
  | None => put_bool false
  end.
Definition get_point : Parser T (option Point3f) :=
  present ← get_bool;
  if present : bool then
    x ← get_f32 enc; y ← get_f32 enc; z ← get_f32 enc;
    mret (Some (mk_Point3f x y z))
  else mret None.

Definition put_image (kv : Z * TrainImage) : list T :=
  put_int enc (fst kv) ++ put_count (Z.to_nat (img_height (snd kv)))
  ++ put_count (Z.to_nat (img_width (snd kv)))
  ++ put_list (put_u8 enc) (img_bitmap (snd kv)).
Definition get_image : Parser T (Z * TrainImage) :=
  id ← get_int enc; h ← get_count; w ← get_count;
  bitmap ← get_n (h * w) (get_u8 enc);
  mret (id, mk_TrainImage (Z.of_nat h) (Z.of_nat w) bitmap).

(** Modelled from the spec: [serialize], the file written by
    [saveLearningData]: the header (format version, train count, descriptor
    element type and width, 3-D flag, image flag), the descriptor matrix,
    the key point positions, the object points with their presence flags,
    the training image ids and, on request, the training images. *)
Definition serialize (includeImages : bool) (s : Store) : list T :=
  put_int enc formatVersion
  ++ put_count (length (m_trainKeyPoints s))
  ++ put_int enc (descriptorTypeCode (m_descriptorType s))
  ++ put_count (descriptorWidth s)
  ++ put_bool (has3DPoints (m_trainPoints s))
  ++ put_bool includeImages
  ++ put_list (put_list (put_element (m_descriptorType s))) (m_trainDescriptors s)
  ++ put_list put_keyPoint (m_trainKeyPoints s)
  ++ put_list put_point (m_trainPoints s)
  ++ put_list (put_int enc) (m_trainImageIds s)
  ++ (if includeImages
      then put_count (length (map_to_list (m_mapOfImages s)))
           ++ put_list put_image (map_to_list (m_mapOfImages s))
      else []).

(** Modelled from the spec: [deserialize], the reading side of
    [loadLearningData]; [None] stands for a malformed header, inconsistent
    counts or a truncated file. *)
Definition deserialize : Parser T Store :=
  version ← get_int enc;
  pguard (version =? formatVersion);;
  n ← get_count;
  code ← get_int enc;
  match descriptorTypeOfCode code with
  | None => pfail
  | Some t =>
      width ← get_count;
      with3D ← get_bool;
      withImages ← get_bool;
      descriptors ← get_n n (get_n width (get_element t));
      keyPoints ← get_n n get_keyPoint;
      points ← get_n n get_point;
      pguard (Bool.eqb with3D (has3DPoints points));;
      ids ← get_n n (get_int enc);
      images ← (if withImages : bool
                then m ← get_count; get_n m get_image
                else mret []);
      mret (mk_Store keyPoints t descriptors points ids (list_to_map images))
  end.

End Serialization.

(** *** Binary mode: fixed-width little-endian fields *)

(** Modelled from the spec: the binary mode of [saveLearningData] writes an
    [int] and a single-precision value as four bytes and a descriptor byte as
    one, least significant byte first. *)

Definition byte_of_Z (z : Z) : Byte.byte :=
  match Byte.of_N (Z.to_N (Z.land z 255)) with
  | Some b => b
  | None => Byte.x00
  end.

Definition Z_of_byte (b : Byte.byte) : Z := Z.of_N (Byte.to_N b).

(** the [n] low bytes of [z], least significant first *)
Fixpoint le_bytes (n : nat) (z : Z) : list Byte.byte :=
  match n with
  | O => []
  | S n' => byte_of_Z z :: le_bytes n' (Z.shiftr z 8)
  end.

Fixpoint le_value (bs : list Byte.byte) : Z :=
  match bs with
  | [] => 0
  | b :: bs' => Z.lor (Z_of_byte b) (Z.shiftl (le_value bs') 8)
  end.

Definition get_bytes (n : nat) : Parser Byte.byte (list Byte.byte) :=
  fun bs => if (n <=? length bs)%nat then Some (firstn n bs, skipn n bs) else None.

(** a 32-bit word read as a signed [int] *)
Definition signed32 (u : Z) : Z := if u <? 2 ^ 31 then u else u - 2 ^ 32.

Definition binaryEncoding : Encoding Byte.byte :=
  {| put_int := fun z => le_bytes 4 (z mod 2 ^ 32);
     get_int := w ← get_bytes 4; mret (signed32 (le_value w));
     put_u8 := fun z => le_bytes 1 z;
     get_u8 := w ← get_bytes 1; mret (le_value w);
     put_f32 := fun f => le_bytes 4 f;
     get_f32 := w ← get_bytes 4; mret (le_value w) |}.

(** *** Text mode: one field per line *)

(** Modelled from the spec: the text mode of [saveLearningData] writes each
    field on a line of its own, an integer in decimal. *)

Definition print_int (z : Z) : string := NilZero.string_of_int (Z.to_int z).
Definition parse_int (s : string) : option Z :=
  option_map Z.of_int (NilZero.int_of_string s).

Definition get_line {A} (parse : string -> option A) : Parser string A :=
  fun ls =>
    match ls with
    | [] => None
    | l :: rest => match parse l with Some a => Some (a, rest) | None => None end
    end.

(** Modelled from the spec: a persisted file, written in binary or in text
    mode. *)
Inductive FileContents :=
| BinaryFile (bytes : list Byte.byte)
| TextFile (lines : list string).

(** The calls that write the store: a training batch, or a load from a file
    of some file system. *)
Inductive StoreCall :=
| CallBuildReference (b : Batch)
| CallLoadLearningData (filename : string) (binaryMode append : bool)
                       (fs : gmap string FileContents).

(** Modelled from the spec: [loadLearningData] with [append = true] adds the
    loaded collections after the present ones. *)
Definition mergeStores (s loaded : Store) : Store :=
  mk_Store (m_trainKeyPoints s ++ m_trainKeyPoints loaded)
           (match m_trainDescriptors s with
            | [] => m_descriptorType loaded
            | _ :: _ => m_descriptorType s
            end)
           (m_trainDescriptors s ++ m_trainDescriptors loaded)
           (m_trainPoints s ++ m_trainPoints loaded)
           (m_trainImageIds s ++ m_trainImageIds loaded)
           (m_mapOfImages s ∪ m_mapOfImages loaded).

Section LearningData.

(** How the text mode prints a single-precision value and reads it back is
    the formatted I/O of the C++ library. *)
Variable print_float : float32 -> string.
Variable parse_float : string -> option float32.

Definition textEncoding : Encoding string :=
  {| put_int := fun z => [print_int z];
     get_int := get_line parse_int;
     put_u8 := fun z => [print_int z];
     get_u8 := get_line parse_int;
     put_f32 := fun f => [print_float f];
     get_f32 := get_line parse_float |}.

(** Modelled from the spec: [saveLearningData] writes the serialized store
    to the file [filename] (its body is not part of the sources). *)
Definition saveLearningData (filename : string) (binaryMode : bool)
    (saveTrainingImages : bool) (s : Store) (fs : gmap string FileContents)
  : gmap string FileContents :=
  <[filename :=
      if binaryMode
      then BinaryFile (serialize binaryEncoding saveTrainingImages s)
      else TextFile (serialize textEncoding saveTrainingImages s)]> fs.

Definition readStore (binaryMode : bool) (f : FileContents) : option Store :=
  match f, binaryMode with
  | BinaryFile bs, true => fst <$> deserialize binaryEncoding bs
  | TextFile ls, false => fst <$> deserialize textEncoding ls
  | _, _ => None
  end.

(** Modelled from the spec: [loadLearningData] replaces the store by the
    file's contents, or adds them when [append] is set; a file that cannot
    be read fails with [CorruptFormatError] and leaves the store as it was
    (its body is not part of the sources). *)
Definition loadLearningData (filename : string) (binaryMode : bool)
    (append : bool) (fs : gmap string FileContents) (s : Store)
  : Result unit * Store :=
  match fs !! filename ≫= readStore binaryMode with
  | Some loaded => (Done tt, if append then mergeStores s loaded else loaded)
  | None => (Fail CorruptFormatError, s)
  end.

Definition runCall (c : StoreCall) (s : Store) : Result unit * Store :=
  match c with
  | CallBuildReference b => buildReferenceBatch b s
  | CallLoadLearningData filename binaryMode append fs =>
      loadLearningData filename binaryMode append fs s
  end.

(** The store after a session: the calls are made in order on a store that
    starts empty; a failed call leaves the store as it was. *)
Definition session (t : DescriptorElementType) (calls : list StoreCall) : Store :=
  fold_left (fun s c => snd (runCall c s)) calls (emptyStore t).

End LearningData.

(** What a store becomes when each single-precision value [f] in it is
    replaced by [r f]: the descriptor elements of a [CV_32F] matrix, the key
    point positions and the object points. *)
Definition roundElement (r : float32 -> float32) (t : DescriptorElementType)
  : Z -> Z :=
  match t with CV_8U => fun z => z | CV_32F => r end.

Definition roundKeyPoint (r : float32 -> float32) (kp : KeyPoint) : KeyPoint :=
  mk_KeyPoint (r (pt_x kp)) (r (pt_y kp)).

Definition roundPoint (r : float32 -> float32) (p : option Point3f)
  : option Point3f :=
  match p with
  | Some q => Some (mk_Point3f (r (p3_x q)) (r (p3_y q)) (r (p3_z q)))
  | None => None
  end.

Definition roundStore (r : float32 -> float32) (s : Store) : Store :=
  mk_Store (map (roundKeyPoint r) (m_trainKeyPoints s))
           (m_descriptorType s)
           (map (map (roundElement r (m_descriptorType s))) (m_trainDescriptors s))
           (map (roundPoint r) (m_trainPoints s))
           (m_trainImageIds s)
           (m_mapOfImages s).

(** Without the training images, which [saveTrainingImages = false] leaves
    out of the file. *)
Definition withImages (keep : bool) (s : Store) : Store :=
  mk_Store (m_trainKeyPoints s) (m_descriptorType s) (m_trainDescriptors s)
           (m_trainPoints s) (m_trainImageIds s)
           (if keep then m_mapOfImages s else ∅).

(** The train data of a store: key points, descriptors with their type,
    object points and training-image ids. *)
Definition trainData (s : Store) :=
  (m_trainKeyPoints s, m_descriptorType s, m_trainDescriptors s,
   m_trainPoints s, m_trainImageIds s).

(** *** Populated stores

    The values of a store that came out of the pipeline: aligned collections,
    rows of one width, elements in the range of their type, 32-bit counts and
    ids, images with [height * width] pixels. *)
Definition elementOK (t : DescriptorElementType) (z : Z) : bool :=
  match t with CV_8U => in_u8 z | CV_32F => in_u32 z end.

Definition keyPointOK (kp : KeyPoint) : bool :=
  in_u32 (pt_x kp) && in_u32 (pt_y kp).

Definition pointOK (p : option Point3f) : bool :=
  match p with
  | Some q => in_u32 (p3_x q) && in_u32 (p3_y q) && in_u32 (p3_z q)
  | None => true
  end.

Definition countOK (n : nat) : bool := Z.of_nat n <? 2 ^ 31.

Definition imageOK (kv : Z * TrainImage) : bool :=
  in_int32 (fst kv)
  && (0 <=? img_height (snd kv)) && (img_height (snd kv) <? 2 ^ 31)
  && (0 <=? img_width (snd kv)) && (img_width (snd kv) <? 2 ^ 31)
  && (length (img_bitmap (snd kv))
      =? Z.to_nat (img_height (snd kv)) * Z.to_nat (img_width (snd kv)))%nat
  && forallb in_u8 (img_bitmap (snd kv)).

Definition populated (s : Store) : bool :=
  let n := length (m_trainKeyPoints s) in
  countOK n
  && (length (m_trainDescriptors s) =? n)%nat
  && (length (m_trainPoints s) =? n)%nat
  && (length (m_trainImageIds s) =? n)%nat
  && countOK (descriptorWidth s)
  && forallb (fun row => (length row =? descriptorWidth s)%nat
                         && forallb (elementOK (m_descriptorType s)) row)
             (m_trainDescriptors s)
  && forallb keyPointOK (m_trainKeyPoints s)
  && forallb pointOK (m_trainPoints s)
  && forallb in_int32 (m_trainImageIds s)
  && countOK (length (map_to_list (m_mapOfImages s)))
  && forallb imageOK (map_to_list (m_mapOfImages s)).

(** ** Vocabulary of the statements, and sample data to run the model on *)

(** Running a member call: the monad's operations are unfolded and the
    record projections computed. *)
Ltac run_method :=
  unfold getCovarianceMatrix, setCovarianceComputation, setFilterMatchingType,
    setUseBruteForceCrossCheck;
  unfold mbind, method_bind, mret, method_ret, mget, mprint, massign, mthrow;
  cbn.

(** One step of a parser that succeeded: the first parser of a bind has
    succeeded as well. *)
Ltac parser_step H :=
  match type of H with
  | mbind _ ?p ?ts = Some _ =>
      unfold mbind at 1, Parser_bind at 1 in H;
      let E := fresh "E" in
      destruct (p ts) as [[? ?]|] eqn:E; [|discriminate H]
  end.

(** The interval of the ratio: above zero and at most one, one being taken up
    to the machine epsilon. *)
Definition inRatioInterval (ratio : double) : Prop :=
  fgt ratio 0%float = true
  /\ (fle ratio 1%float = true
      \/ flt (PrimFloat.abs (PrimFloat.sub ratio 1%float)) DBL_EPSILON = true).

(** What a setter guarded by [arg > 0] does: a non-positive argument throws
    and leaves the object as it was; a positive one is stored. *)
Definition positiveGuarded {A : Type} (setter : A -> method unit)
    (nonPositive positive : A -> Prop) (field : vpKeyPoint -> A)
    (assign : A -> vpKeyPoint -> vpKeyPoint) (msg : string) : Prop :=
  forall (a : A) (k : vpKeyPoint),
    (nonPositive a ->
       ret (setter a k) = Throw (mk_vpException badValue msg)
       /\ self_after (setter a k) = k
       /\ field (self_after (setter a k)) = field k)
    /\ (positive a ->
         ret (setter a k) = Ok tt
         /\ self_after (setter a k) = assign a k
         /\ field (self_after (setter a k)) = a).

(** The two filters that use the ratio of the two best matches. *)
Definition ratioBased (t : vpFilterMatchingType) : Prop :=
  t = ratioDistanceThreshold \/ t = stdAndRatioDistanceThreshold.

(** The three conditions under which the cross check reaches the matcher. *)
Definition crossCheckApplies (k : vpKeyPoint) : Prop :=
  m_matcher k <> None /\ m_useKnn k = false /\ m_matcherName k = "BruteForce".

(** The matches at the minimum distance, as the property on the constant
    factor 1 has them. *)
Definition keepsExactlyMinimal (raw kept : list Correspondence) : Prop :=
  forall m, In m kept <-> In m raw /\ (distance m == min_distance raw)%Q.

(** A toy geometry to run [getPose] on: a correspondence and a pose are
    integers, a pose fits the correspondences equal to it, the solver takes
    the first element of the drawn subset, and the generator walks through
    the list. *)
Definition toySolve (subset : list Z) : option Z :=
  match subset with
  | c :: _ => Some c
  | [] => None
  end.

Definition toyError (p c : Z) : double :=
  if p =? c then 0%float else 10%float.

Definition toyDraw (seed : nat) (l : list Z) : list Z * nat :=
  (firstn 1 (skipn seed l), S seed).

(** An object to run the members on. *)
Definition sampleKeyPoint : vpKeyPoint :=
  {| m_computeCovariance := false;
     m_covarianceMatrix := [];
     m_detectionMethod := detectionScore;
     m_filterType := ratioDistanceThreshold;
     m_matcher := None;
     m_matcherName := "BruteForce-Hamming";
     m_matchingFactorThreshold := 2%float;
     m_matchingRatioThreshold := 0.75%float;
     m_nbRansacIterations := 5;
     m_nbRansacMinInlierCount := 3;
     m_ransacConsensusPercentage := 20%float;
     m_ransacReprojectionError := 6%float;
     m_ransacThreshold := 0x1p-10%float;
     m_useBruteForceCrossCheck := false;
     m_useConsensusPercentage := false;
     m_useKnn := true;
     m_useRansacVVS := false |}.

Definition toyPose : vpKeyPoint -> nat -> list Z -> Result (PoseResult Z Z) :=
  getPose toySolve toyError toyError (fun p _ => p) (fun _ _ => []) toyDraw.

(** The sizes of a batch disagree: the descriptor rows, or the supplied
    object points, are not as many as the key points. *)
Definition sizeMismatch (kps : list KeyPoint) (descs : list (list Z))
    (pts : option (list Point3f)) : Prop :=
  length kps <> length descs
  \/ exists ps, pts = Some ps /\ length ps <> length kps.

(** A text mode that drops the eight low bits of a single-precision
    pattern when printing. *)
Definition print_float_coarse (f : float32) : string := print_int (Z.shiftr f 8).
Definition parse_float_coarse (s : string) : option float32 :=
  option_map (fun z => Z.shiftl z 8) (parse_int s).
Definition reread_coarse (f : float32) : float32 := Z.shiftl (Z.shiftr f 8) 8.

(** A store of two key points with single-precision descriptors, one object
    point and one training image. *)
Definition sampleStore : Store :=
  mk_Store [mk_KeyPoint 1078530011 1065353216; mk_KeyPoint 1073741824 3212836864]
           CV_32F
           [[1056964608; 1048576255]; [0; 1065353216]]
           [Some (mk_Point3f 1065353216 0 1077936128); None]
           [1; 2]
           (<[1 := mk_TrainImage 1 2 [10; 255]]> ∅).

(** * Properties *)

(** ** Facts on doubles *)

Lemma Prim2SF_zero : Prim2SF 0%float = S754_zero false.
Proof. reflexivity. Qed.

Lemma Prim2SF_one : Prim2SF 1%float = S754_finite false 4503599627370496 (-52).
Proof. reflexivity. Qed.

(** A value that is at most zero is not above zero, and conversely. *)
Lemma fle_zero_not_fgt (f : double) : fle f 0%float = true -> fgt f 0%float = false.
Proof.
  unfold fle, fgt. rewrite FloatAxioms.leb_spec, FloatAxioms.ltb_spec, Prim2SF_zero.
  unfold SFleb, SFltb.
  destruct (Prim2SF f) as [s|s| |s m e]; simpl; try destruct s; simpl; congruence.
Qed.

Lemma fgt_zero_not_fle (f : double) : fgt f 0%float = true -> fle f 0%float = false.
Proof.
  intros H. destruct (fle f 0%float) eqn:E; [|reflexivity].
  apply fle_zero_not_fgt in E. congruence.
Qed.

(** A value that compares equal to a positive finite one is that one. *)
Lemma SFcompare_Eq_finite (x : spec_float) (m : positive) (e : Z) :
  SFcompare x (S754_finite false m e) = Some Eq -> x = S754_finite false m e.
Proof.
  destruct x as [s|s| |s m' e']; cbn [SFcompare].
  - destruct s; discriminate.
  - destruct s; discriminate.
  - discriminate.
  - destruct s; [discriminate|].
    destruct (Z.compare_spec e' e); try discriminate. subst e'.
    intros [= E]. apply Pos.compare_eq in E. now subst.
Qed.

(** Below or equal to one means below one, or one itself. *)
Lemma fle_one_cases (f : double) :
  fle f 1%float = true -> flt f 1%float = true \/ f = 1%float.
Proof.
  unfold fle, flt. rewrite FloatAxioms.leb_spec, FloatAxioms.ltb_spec, Prim2SF_one.
  unfold SFleb, SFltb. intros H.
  destruct (SFcompare (Prim2SF f) _) as [[ | | ]|] eqn:E; try discriminate.
  - right. apply Prim2SF_inj. rewrite Prim2SF_one.
    now apply SFcompare_Eq_finite.
  - now left.
Qed.

Lemma flt_one_fle (f : double) : flt f 1%float = true -> fle f 1%float = true.
Proof.
  unfold fle, flt. rewrite FloatAxioms.leb_spec, FloatAxioms.ltb_spec. unfold SFleb, SFltb.
  destruct (SFcompare _ _) as [[ | | ]|]; congruence.
Qed.

(** ** Configuration setters *)

Lemma ratio_guard_spec (ratio : double) :
  fgt ratio 0%float
  && (flt ratio 1%float
      || flt (PrimFloat.abs (PrimFloat.sub ratio 1%float)) DBL_EPSILON) = true
  <-> inRatioInterval ratio.
Proof.
  unfold inRatioInterval. rewrite andb_true_iff, orb_true_iff. split.
  - intros [H0 [H1|H1]]; split; auto using flt_one_fle.
  - intros [H0 [H1|H1]]; split; auto.
    destruct (fle_one_cases _ H1) as [H2| ->]; [now left | now right].
Qed.

(** C6: [setMatchingRatioThreshold] stores the ratio exactly when it lies in
    the interval ]0 ; 1] (one up to the machine epsilon); for any other double
    it throws and leaves the object, hence the stored ratio, as it was. *)
Theorem setMatchingRatioThreshold_spec :
  forall (ratio : double) (k : vpKeyPoint),
    let o := setMatchingRatioThreshold ratio k in
    (inRatioInterval ratio ->
       ret o = Ok tt
       /\ self_after o = set_m_matchingRatioThreshold ratio k
       /\ m_matchingRatioThreshold (self_after o) = ratio)
    /\ (~ inRatioInterval ratio ->
         ret o = Throw (mk_vpException badValue
                          "The ratio must be in the interval ]0 ; 1].")
         /\ self_after o = k
         /\ m_matchingRatioThreshold (self_after o) = m_matchingRatioThreshold k)
    /\ (ret o = Ok tt <-> inRatioInterval ratio).
Proof.
  intros ratio k o. subst o. unfold setMatchingRatioThreshold.
  pose proof (ratio_guard_spec ratio) as G.
  destruct (fgt ratio 0%float && _) eqn:E.
  - assert (inRatioInterval ratio) as I by now apply G.
    cbn. split; [|split]; [auto | intros N; contradiction | tauto].
  - assert (~ inRatioInterval ratio) as I.
    { intros I. apply G in I. discriminate. }
    cbn. split; [|split]; [intros N; contradiction | auto |].
    split; [discriminate | intros N; contradiction].
Qed.

(** The ratio 1/2 and the ratio 1 are stored; 0, 3/2, the double next above
    1, a NaN and the infinity are refused. *)
Example setMatchingRatioThreshold_runs :
  forall k,
    map (fun r => is_throw (ret (setMatchingRatioThreshold r k)))
        [0.5%float; 1%float; 0%float; 1.5%float; 0x1.0000000000001p0%float;
         PrimFloat.nan; PrimFloat.infinity; (-1)%float]
    = [false; false; true; true; true; true; true; true].
Proof. intros k. reflexivity. Qed.

Lemma positiveGuarded_double (setter : double -> method unit) field assign msg :
  (forall a, setter a =
             if fgt a 0%float then massign (assign a) else mthrow badValue msg) ->
  (forall a k, field (assign a k) = a) ->
  positiveGuarded setter (fun a => fle a 0%float = true)
                  (fun a => fgt a 0%float = true) field assign msg.
Proof.
  intros Hdef Hfield a k. rewrite Hdef. split; intros H.
  - rewrite (fle_zero_not_fgt _ H). now cbn.
  - rewrite H. cbn. auto.
Qed.

Lemma positiveGuarded_int (setter : Z -> method unit) field assign msg :
  (forall a, setter a =
             if 0 <? a then massign (assign a) else mthrow badValue msg) ->
  (forall a k, field (assign a k) = a) ->
  positiveGuarded setter (fun a => a <= 0) (fun a => 0 < a) field assign msg.
Proof.
  intros Hdef Hfield a k. rewrite Hdef. split; intros H.
  - destruct (Z.ltb_spec 0 a); [lia|]. now cbn.
  - destruct (Z.ltb_spec 0 a); [|lia]. cbn. auto.
Qed.

(** C7: each of the five setters guarded by [> 0] throws its [badValue]
    exception on every non-positive argument, leaving the object and so the
    stored parameter as they were, and stores every strictly positive
    argument. *)
Theorem positive_setters_spec :
  positiveGuarded setMatchingFactorThreshold
    (fun a => fle a 0%float = true) (fun a => fgt a 0%float = true)
    m_matchingFactorThreshold set_m_matchingFactorThreshold
    "The factor must be positive."
  /\ positiveGuarded setRansacIteration
       (fun a => a <= 0) (fun a => 0 < a)
       m_nbRansacIterations set_m_nbRansacIterations
       "The number of iterations must be greater than zero."
  /\ positiveGuarded setRansacReprojectionError
       (fun a => fle a 0%float = true) (fun a => fgt a 0%float = true)
       m_ransacReprojectionError set_m_ransacReprojectionError
       "The Ransac reprojection threshold must be positive as we deal with distance."
  /\ positiveGuarded setRansacMinInlierCount
       (fun a => a <= 0) (fun a => 0 < a)
       m_nbRansacMinInlierCount set_m_nbRansacMinInlierCount
       "The minimum number of inliers must be greater than zero."
  /\ positiveGuarded setRansacThreshold
       (fun a => fle a 0%float = true) (fun a => fgt a 0%float = true)
       m_ransacThreshold set_m_ransacThreshold
       "The Ransac threshold must be positive as we deal with distance.".
Proof.
  split; [|split; [|split; [|split]]].
  - eapply positiveGuarded_double; intros; reflexivity.
  - eapply positiveGuarded_int; intros; reflexivity.
  - eapply positiveGuarded_double; intros; reflexivity.
  - eapply positiveGuarded_int; intros; reflexivity.
  - eapply positiveGuarded_double; intros; reflexivity.
Qed.

(** ** Covariance getter *)

(** C8: [getCovarianceMatrix] never throws and leaves the object as it is;
    unless both the covariance flag and the Virtual Visual Servoing estimator
    are selected it returns the empty matrix and prints a warning, and with
    both selected it returns the stored covariance matrix. *)
Theorem getCovarianceMatrix_spec :
  forall k : vpKeyPoint,
    let o := getCovarianceMatrix k in
    is_throw (ret o) = false
    /\ self_after o = k
    /\ (m_computeCovariance k = false \/ m_useRansacVVS k = false ->
          ret o = Ok vpMatrix_empty /\ cout o <> [])
    /\ (m_computeCovariance k = true /\ m_useRansacVVS k = true ->
          ret o = Ok (m_covarianceMatrix k) /\ cout o = [])
    /\ (m_computeCovariance k = false -> cout o = [warn_not_computed])
    /\ (m_computeCovariance k = true /\ m_useRansacVVS k = false ->
          cout o = [warn_vvs_only; warn_vvs_hint]).
Proof.
  intros k o. subst o. unfold getCovarianceMatrix.
  destruct k as [cc cm dm ft mt mn fth rth it ic cp re th cr up kn vvs].
  destruct cc, vvs; run_method; intuition congruence.
Qed.

(** ** Filter selection and the nearest-neighbour flag *)

Lemma setFilterMatchingType_useKnn (t : vpFilterMatchingType) (k : vpKeyPoint) :
  m_useKnn (self_after (setFilterMatchingType t k)) = true <-> ratioBased t.
Proof.
  unfold ratioBased. destruct t; run_method; intuition congruence.
Qed.

(** C9: after [setFilterMatchingType t] the nearest-neighbour flag is set
    exactly for the two ratio-based filters, and the filter type is [t]; so
    when the matching pass follows the flag, the chosen filter never fails
    for want of the two-nearest-neighbour pass. *)
Theorem setFilterMatchingType_spec :
  forall (t : vpFilterMatchingType) (k : vpKeyPoint),
    let o := setFilterMatchingType t k in
    ret o = Ok tt
    /\ m_filterType (self_after o) = t
    /\ (m_useKnn (self_after o) = true <-> ratioBased t)
    /\ (forall stddev raw factor ratio,
          knnPass raw = m_useKnn (self_after o) ->
          filterMatches stddev raw (m_filterType (self_after o)) factor ratio
          <> Fail PreconditionError).
Proof.
  intros t k o. subst o. split; [|split; [|split]].
  - now destruct t.
  - now destruct t.
  - apply setFilterMatchingType_useKnn.
  - intros stddev raw factor ratio Hknn.
    revert Hknn. destruct t; run_method; intros Hknn; unfold filterMatches;
      rewrite ?Hknn; cbn;
      repeat match goal with
             | |- context [if ?b then _ else _] => destruct b
             end; discriminate.
Qed.

(** ** Cross check of the brute-force matcher *)

(** C10: [setUseBruteForceCrossCheck] never throws and prints nothing; it
    leaves the object as it was unless the matcher is initialised, the
    nearest-neighbour flag is off and the matcher is named "BruteForce", in
    which case only the matcher's "crossCheck" parameter is written; after a
    ratio-based filter was selected the call changes nothing. *)
Theorem setUseBruteForceCrossCheck_spec :
  forall (useCrossCheck : bool) (k : vpKeyPoint),
    let o := setUseBruteForceCrossCheck useCrossCheck k in
    ret o = Ok tt
    /\ cout o = []
    /\ (~ crossCheckApplies k -> self_after o = k)
    /\ (crossCheckApplies k ->
          exists m, m_matcher k = Some m
            /\ self_after o =
               set_m_matcher
                 (Some (matcher_set "crossCheck" (ParamBool useCrossCheck) m)) k)
    /\ (forall t k0, ratioBased t ->
          k = self_after (setFilterMatchingType t k0) -> self_after o = k).
Proof.
  intros b k o. subst o. unfold crossCheckApplies.
  assert (forall t k0, ratioBased t ->
            m_useKnn (self_after (setFilterMatchingType t k0)) = true) as Hknn.
  { intros t k0 Ht. now apply setFilterMatchingType_useKnn. }
  run_method. destruct (m_matcher k) as [m|] eqn:Em.
  - destruct (m_useKnn k) eqn:Ek; cbn.
    + split; [reflexivity|]. split; [reflexivity|]. split; [reflexivity|].
      split; [|reflexivity]. intros [_ [H _]]. discriminate.
    + destruct (String.eqb_spec (m_matcherName k) "BruteForce") as [En|En]; cbn.
      * split; [reflexivity|]. split; [reflexivity|]. split; [|split].
        -- intros N. exfalso. apply N. repeat split; auto; discriminate.
        -- intros _. now exists m.
        -- intros t k0 Ht Hk. exfalso.
           assert (m_useKnn k = true) as Hn by (rewrite Hk; exact (Hknn t k0 Ht)).
           congruence.
      * split; [reflexivity|]. split; [reflexivity|]. split; [reflexivity|].
        split; [|reflexivity]. intros [_ [_ H]]. contradiction.
  - cbn. split; [reflexivity|]. split; [reflexivity|]. split; [reflexivity|].
    split; [|reflexivity]. intros [H _]. contradiction.
Qed.

(** ** Match filter *)

Lemma Qltb_lt (a b : Q) : Qltb a b = true <-> (a < b)%Q.
Proof.
  unfold Qltb. rewrite negb_true_iff. split.
  - intros H. apply Qnot_le_lt. intros L. apply Qle_bool_iff in L. congruence.
  - intros H. destruct (Qle_bool b a) eqn:E; [|reflexivity].
    apply Qle_bool_iff in E. exfalso. exact (Qlt_not_le _ _ H E).
Qed.

(** The minimum distance is a lower bound of the distances and one of them. *)
Lemma fold_Qmin_le (l : list Q) (a : Q) :
  (fold_left Qmin l a <= a)%Q /\ Forall (fun x => (fold_left Qmin l a <= x)%Q) l.
Proof.
  revert a. induction l as [|x l IH]; intros a; cbn.
  - split; [apply Qle_refl | constructor].
  - destruct (IH (Qmin a x)) as [H1 H2]. split.
    + eapply Qle_trans; [exact H1 | apply Q.le_min_l].
    + constructor; [|exact H2].
      eapply Qle_trans; [exact H1 | apply Q.le_min_r].
Qed.

Lemma Qmin_cases (a x : Q) : Qmin a x = a \/ Qmin a x = x.
Proof. unfold Qmin, GenericMinMax.gmin. destruct (a ?= x)%Q; auto. Qed.

Lemma fold_Qmin_attained (l : list Q) (a : Q) :
  (fold_left Qmin l a == a)%Q \/ Exists (fun x => (fold_left Qmin l a == x)%Q) l.
Proof.
  revert a. induction l as [|x l IH]; intros a; cbn.
  - left. reflexivity.
  - destruct (IH (Qmin a x)) as [H|H].
    + destruct (Qmin_cases a x) as [E|E].
      * left. rewrite H, E. reflexivity.
      * right. constructor. rewrite H, E. reflexivity.
    + right. now constructor 2.
Qed.

Lemma min_distance_le (raw : list Correspondence) (m : Correspondence) :
  In m raw -> (min_distance raw <= distance m)%Q.
Proof.
  destruct raw as [|m0 raw]; [contradiction|]. cbn [min_distance].
  destruct (fold_Qmin_le (map distance raw) (distance m0)) as [H1 H2].
  intros [<-|Hin]; [exact H1|].
  rewrite List.Forall_forall in H2. apply H2. now apply in_map.
Qed.

Lemma min_distance_attained (raw : list Correspondence) :
  raw <> [] -> exists m, In m raw /\ (distance m == min_distance raw)%Q.
Proof.
  destruct raw as [|m0 raw]; [congruence|]. intros _. cbn [min_distance].
  destruct (fold_Qmin_attained (map distance raw) (distance m0)) as [H|H].
  - exists m0. split; [now left | now symmetry].
  - rewrite List.Exists_exists in H. destruct H as [x [Hx E]].
    apply in_map_iff in Hx. destruct Hx as [m [<- Hm]].
    exists m. split; [now right | now symmetry].
Qed.

(** C4: when the standard-deviation filter and the ratio filter both apply to
    the raw matches, the combined filter applies as well, and a match
    survives it exactly when it survives one of the two; so its result
    contains both single results. *)
Theorem stdAndRatio_is_union :
  forall (stddev : list Q -> Q) (raw : RawMatches) (factor ratio : Q)
         (a b : list Correspondence),
    filterMatches stddev raw stdDistanceThreshold factor ratio = Done a ->
    filterMatches stddev raw ratioDistanceThreshold factor ratio = Done b ->
    exists c,
      filterMatches stddev raw stdAndRatioDistanceThreshold factor ratio = Done c
      /\ (forall m, In m c <-> In m a \/ In m b)
      /\ incl a c /\ incl b c.
Proof.
  intros stddev raw factor ratio a b Ha Hb. unfold filterMatches in *.
  destruct (negb (ratio_in_range ratio)); [discriminate|].
  destruct (negb (knnPass raw)); [discriminate|].
  injection Ha as <-. injection Hb as <-.
  eexists. split; [reflexivity|].
  assert (forall m,
            In m (List.filter (fun m => keep_std stddev (rawMatches raw) m
                                        || keep_ratio ratio m) (rawMatches raw))
            <-> In m (List.filter (keep_std stddev (rawMatches raw)) (rawMatches raw))
                \/ In m (List.filter (keep_ratio ratio) (rawMatches raw))) as U.
  { intros m. rewrite !filter_In, orb_true_iff. tauto. }
  split; [exact U|]. split; intros m Hm; apply U; auto.
Qed.




Lemma stdAndRatio_is_union_witness :
  let m1 := mk_Correspondence 0 3 2 (Some 4%Q) in
  let m2 := mk_Correspondence 1 5 3 (Some (7 # 2)) in
  let m3 := mk_Correspondence 2 7 9 (Some 10%Q) in
  let m4 := mk_Correspondence 3 1 8 (Some 20%Q) in
  let raw := mk_RawMatches true [m1; m2; m3; m4] in
  exists c,
    filterMatches stddev_milli raw stdAndRatioDistanceThreshold 1 (3 # 5) = Done c
    /\ (forall m, In m c <-> In m [m1; m2] \/ In m [m1; m4])
    /\ incl [m1; m2] c /\ incl [m1; m4] c.
Proof.
  cbn zeta.
  apply (stdAndRatio_is_union stddev_milli
           (mk_RawMatches true
              [mk_Correspondence 0 3 2 (Some 4%Q);
               mk_Correspondence 1 5 3 (Some (7 # 2));
               mk_Correspondence 2 7 9 (Some 10%Q);
               mk_Correspondence 3 1 8 (Some 20%Q)]) 1 (3 # 5)).
  - reflexivity.
  - reflexivity.
Defined.

(** ** Acceptance of the pose *)

Section PoseAcceptance.

Variables (Pair Pose Seed : Type).
Variable solvePose : list Pair -> option Pose.
Variable reprojectionError : Pose -> Pair -> double.
Variable geometricError : Pose -> Pair -> double.
Variable refinePose : Pose -> list Pair -> Pose.
Variable poseCovariance : Pose -> list Pair -> vpMatrix.
Variable drawSubset : Seed -> list Pair -> list Pair * Seed.

Local Abbreviation score := (countInliers reprojectionError geometricError).
Local Abbreviation loop :=
  (samplingLoop solvePose reprojectionError geometricError drawSubset).
Local Abbreviation best :=
  (bestInlierCount solvePose reprojectionError geometricError drawSubset).
Local Abbreviation pose :=
  (getPose solvePose reprojectionError geometricError refinePose
           poseCovariance drawSubset).
Local Abbreviation scored := (scoredCandidate reprojectionError geometricError).

Lemma samplingLoop_scored k n seed l b :
  scored k l b -> scored k l (loop k n seed l b).
Proof.
  revert seed b.
  induction n as [|n IH]; intros seed b Hb; cbn [samplingLoop].
  - exact Hb.
  - destruct (drawSubset seed l) as [subset seed'].
    apply IH. destruct (solvePose subset) as [p|]; [|exact Hb].
    destruct b as [[p0 n0]|].
    + destruct (Nat.ltb n0 (countInliers reprojectionError geometricError k p l));
        [reflexivity | exact Hb].
    + reflexivity.
Qed.

(** What [getPose] returns, in terms of the best candidate of the run. *)
Lemma getPose_cases k seed l :
  (length l < minimalSampleSize)%nat
  /\ pose k seed l = Fail InsufficientCorrespondencesError
  /\ best k seed l = O
  \/ (minimalSampleSize <= length l)%nat
     /\ ((exists r, pose k seed l = Done r
                    /\ length (inliers r) = best k seed l
                    /\ meetsConsensus k (best k seed l) (length l) = true)
         \/ (pose k seed l = Fail PoseNotFoundError
             /\ (meetsConsensus k (best k seed l) (length l) = false
                 \/ loop k (Z.to_nat (m_nbRansacIterations k)) seed l None = None
                    /\ best k seed l = O))).
Proof.
  unfold getPose, bestInlierCount, bestCandidate.
  destruct (Nat.ltb_spec (length l) minimalSampleSize) as [Hlt|Hge].
  - left. auto.
  - right. split; [exact Hge|].
    pose proof (samplingLoop_scored k (Z.to_nat (m_nbRansacIterations k)) seed l
                  None I) as Hs.
    destruct (samplingLoop _ _ _ _ _ _ _ _ None) as [[p n]|]; [|right; auto].
    cbn in Hs.
    destruct (meetsConsensus k n (length l)) eqn:Em; [|right; auto].
    left. destruct (m_useRansacVVS k) eqn:Ev; eexists; (split; [reflexivity|]);
      (split; [|reflexivity]); cbn; subst n; reflexivity.
Qed.


End PoseAcceptance.

(** Three inliers reach the floor of three; two do not; three
    correspondences are too few to start. *)
Example toyPose_runs :
  toyPose sampleKeyPoint 0 [7; 7; 7; 1; 2]
  = Done (mk_PoseResult Z Z 7 [7; 7; 7] [1; 2] None)
  /\ toyPose sampleKeyPoint 0 [7; 7; 4; 1; 2] = Fail PoseNotFoundError
  /\ toyPose sampleKeyPoint 0 [7; 7; 7] = Fail InsufficientCorrespondencesError.
Proof. repeat split; reflexivity. Qed.



(** ** Appending a training batch *)

Lemma buildReference_mismatch kps descs pts id s :
  sizeMismatch kps descs pts ->
  buildReference kps descs pts id s = (Fail SizeMismatchError, s).
Proof.
  unfold buildReference. intros [H|[ps [-> H]]].
  - destruct (Nat.eqb_spec (length kps) (length descs)); [contradiction|reflexivity].
  - destruct (Nat.eqb_spec (length kps) (length descs)); [|reflexivity]. cbn.
    destruct (Nat.eqb_spec (length ps) (length kps)); [contradiction|reflexivity].
Qed.

Lemma buildReference_match kps descs pts id s :
  ~ sizeMismatch kps descs pts ->
  fst (buildReference kps descs pts id s) = Done tt
  /\ m_trainKeyPoints (snd (buildReference kps descs pts id s))
     = (m_trainKeyPoints s ++ kps)%list
  /\ m_trainDescriptors (snd (buildReference kps descs pts id s))
     = (m_trainDescriptors s ++ descs)%list.
Proof.
  unfold buildReference, sizeMismatch. intros H.
  destruct (Nat.eqb_spec (length kps) (length descs)) as [E|E]; [|tauto]. cbn.
  destruct pts as [ps|]; [|auto].
  destruct (Nat.eqb_spec (length ps) (length kps)) as [E'|E']; [auto|].
  exfalso. apply H. right. eauto.
Qed.

Lemma buildReference_aligned kps descs pts id s :
  trainAligned s -> trainAligned (snd (buildReference kps descs pts id s)).
Proof.
  unfold buildReference, trainAligned. intros [H1 H2].
  destruct (Nat.eqb_spec (length kps) (length descs)) as [E|E]; [|auto]. cbn.
  destruct pts as [ps|].
  - destruct (Nat.eqb_spec (length ps) (length kps)) as [E'|E']; [|auto]. cbn.
    rewrite !length_app, length_map. lia.
  - cbn. rewrite !length_app, repeat_length. lia.
Qed.

Lemma get_n_length {T A} (n : nat) (get : Parser T A) (ts : list T)
    (l : list A) (rest : list T) :
  get_n n get ts = Some (l, rest) -> length l = n.
Proof.
  revert ts l rest. induction n as [|n IH]; intros ts l rest; cbn.
  - intros [= <- _]. reflexivity.
  - unfold mbind, Parser_bind.
    destruct (get ts) as [[a ts1]|]; [|discriminate].
    destruct (get_n n get ts1) as [[l1 ts2]|] eqn:E; [|discriminate].
    intros [= <- _]. cbn. f_equal. exact (IH _ _ _ E).
Qed.

Lemma deserialize_aligned {T} (enc : Encoding T) (ts : list T) (s : Store)
    (rest : list T) :
  deserialize enc ts = Some (s, rest) -> trainAligned s.
Proof.
  unfold deserialize. intros H.
  parser_step H. parser_step H. parser_step H. parser_step H.
  destruct (descriptorTypeOfCode _) as [t|]; [|discriminate H].
  do 6 parser_step H.
  parser_step H. parser_step H. parser_step H.
  injection H as <- _.
  repeat match goal with
         | E : get_n _ _ _ = Some _ |- _ => apply get_n_length in E
         end.
  split; cbn; congruence.
Qed.

Lemma mergeStores_aligned (s loaded : Store) :
  trainAligned s -> trainAligned loaded -> trainAligned (mergeStores s loaded).
Proof.
  unfold trainAligned, mergeStores. cbn. intros [H1 H2] [H3 H4].
  rewrite !length_app. lia.
Qed.

Lemma loadLearningData_aligned print_float parse_float filename binaryMode
    append fs s :
  trainAligned s ->
  trainAligned (snd (loadLearningData print_float parse_float filename
                       binaryMode append fs s)).
Proof.
  intros Hs. unfold loadLearningData.
  destruct (fs !! filename ≫= readStore print_float parse_float binaryMode)
    as [loaded|] eqn:E; [|exact Hs].
  assert (trainAligned loaded) as Hl.
  { destruct (fs !! filename) as [f|]; [|discriminate]. cbn in E.
    unfold readStore in E.
    destruct f as [bs|ls], binaryMode; try discriminate.
    - destruct (deserialize binaryEncoding bs) as [[s' rest]|] eqn:D;
        [|discriminate]. injection E as <-. exact (deserialize_aligned _ _ _ _ D).
    - destruct (deserialize _ ls) as [[s' rest]|] eqn:D;
        [|discriminate]. injection E as <-. exact (deserialize_aligned _ _ _ _ D). }
  cbn. destruct append; [now apply mergeStores_aligned | exact Hl].
Qed.

Lemma session_aligned print_float parse_float t calls :
  trainAligned (session print_float parse_float t calls).
Proof.
  unfold session.
  assert (trainAligned (emptyStore t)) as H0 by (split; reflexivity).
  revert H0. generalize (emptyStore t) as s.
  induction calls as [|c calls IH]; intros s Hs; cbn [fold_left]; [exact Hs|].
  apply IH. destruct c as [b|filename binaryMode append fs]; cbn [runCall].
  - now apply buildReference_aligned.
  - now apply loadLearningData_aligned.
Qed.

(** C2: a call of [buildReference] whose sizes disagree fails with the
    size-mismatch error and leaves the store as it was; a call whose sizes
    agree succeeds; and after every successful call in a session (of training
    batches and loads, from the empty store) the train key points,
    descriptors and object points are equally many. *)
Theorem buildReference_sizes :
  forall (kps : list KeyPoint) (descs : list (list Z))
         (pts : option (list Point3f)) (id : Z),
    (forall s, sizeMismatch kps descs pts ->
               buildReference kps descs pts id s = (Fail SizeMismatchError, s))
    /\ (forall s, ~ sizeMismatch kps descs pts ->
                  fst (buildReference kps descs pts id s) = Done tt)
    /\ (forall print_float parse_float t calls,
          let s := session print_float parse_float t calls in
          let s' := snd (buildReference kps descs pts id s) in
          fst (buildReference kps descs pts id s) = Done tt ->
          length (m_trainDescriptors s') = length (m_trainKeyPoints s')
          /\ length (m_trainPoints s') = length (m_trainKeyPoints s')
          /\ length (m_trainKeyPoints s')
             = (length (m_trainKeyPoints s) + length kps)%nat).
Proof.
  intros kps descs pts id. split; [|split].
  - intros s. apply buildReference_mismatch.
  - intros s H. now apply buildReference_match.
  - intros print_float parse_float t calls s s' Hok.
    destruct (buildReference_aligned kps descs pts id s
                (session_aligned print_float parse_float t calls)) as [H1 H2].
    split; [exact H1|]. split; [exact H2|].
    subst s'. revert Hok. unfold buildReference.
    destruct (negb _); [discriminate|].
    destruct pts as [ps|]; [destruct (negb _); [discriminate|]|];
      intros _; cbn; now rewrite length_app.
Qed.

(** A session of three batches, the second one refused for its sizes. *)
Example session_runs :
  let kp := mk_KeyPoint 0 0 in
  let b1 := mk_Batch [kp; kp] [[1; 2]; [3; 4]] None 1 in
  let b2 := mk_Batch [kp] [[5; 6]] (Some []) 2 in
  let b3 := mk_Batch [kp] [[5; 6]] (Some [mk_Point3f 0 0 0]) 2 in
  let run := session print_float_coarse parse_float_coarse CV_8U in
  fst (buildReferenceBatch b2 (run [CallBuildReference b1]))
  = Fail SizeMismatchError
  /\ run [CallBuildReference b1; CallBuildReference b2; CallBuildReference b3]
     = mk_Store [kp; kp; kp] CV_8U [[1; 2]; [3; 4]; [5; 6]]
                [None; None; Some (mk_Point3f 0 0 0)] [1; 1; 2] ∅.
Proof. split; reflexivity. Qed.

(** ** Persistence: what is written is read back *)

Local Open Scope list_scope.

(** *** Parsers *)

Lemma parser_bind_ok {T A B} (p : Parser T A) (f : A -> Parser T B)
    (ts rest : list T) (a : A) :
  p ts = Some (a, rest) -> (p ≫= f) ts = f a rest.
Proof. intros H. unfold mbind, Parser_bind. now rewrite H. Qed.

Lemma pguard_true_bind {T B} (f : unit -> Parser T B) (ts : list T) :
  (pguard true ≫= f) ts = f tt ts.
Proof. reflexivity. Qed.

Lemma get_n_put_list {T A} (get : Parser T A) (put : A -> list T)
    (P : A -> bool) (r : A -> A) :
  (forall a rest, P a = true -> get (put a ++ rest) = Some (r a, rest)) ->
  forall l rest,
    forallb P l = true ->
    get_n (length l) get (put_list put l ++ rest) = Some (map r l, rest).
Proof.
  intros Hget. induction l as [|a l IH]; intros rest Hl; cbn.
  - reflexivity.
  - cbn in Hl. apply andb_true_iff in Hl. destruct Hl as [Ha Hl].
    rewrite <- app_assoc.
    rewrite (parser_bind_ok _ _ _ _ _ (Hget a _ Ha)).
    rewrite (parser_bind_ok _ _ _ _ _ (IH rest Hl)).
    reflexivity.
Qed.

Section RoundTrip.

Context {T : Type} (enc : Encoding T) (round : float32 -> float32).

Hypothesis int_law : forall z rest,
  in_int32 z = true -> get_int enc (put_int enc z ++ rest) = Some (z, rest).
Hypothesis u8_law : forall z rest,
  in_u8 z = true -> get_u8 enc (put_u8 enc z ++ rest) = Some (z, rest).
Hypothesis f32_law : forall f rest,
  in_u32 f = true -> get_f32 enc (put_f32 enc f ++ rest) = Some (round f, rest).

Lemma count_law (n : nat) (rest : list T) :
  countOK n = true ->
  get_count enc (put_count enc n ++ rest) = Some (n, rest).
Proof.
  unfold countOK, get_count, put_count. intros H. apply Z.ltb_lt in H.
  rewrite (parser_bind_ok _ _ _ _ _ (int_law (Z.of_nat n) rest ltac:(
    unfold in_int32; apply andb_true_iff; split;
    [apply Z.leb_le | apply Z.ltb_lt]; lia))).
  destruct (Z.leb_spec 0 (Z.of_nat n)); [|lia].
  cbn. now rewrite Nat2Z.id.
Qed.

Lemma bool_law (b : bool) (rest : list T) :
  get_bool enc (put_bool enc b ++ rest) = Some (b, rest).
Proof.
  unfold get_bool, put_bool.
  rewrite (parser_bind_ok _ _ _ _ _ (int_law (Z_of_bool b) rest ltac:(
    now destruct b))).
  now destruct b.
Qed.

Lemma element_law (t : DescriptorElementType) (z : Z) (rest : list T) :
  elementOK t z = true ->
  get_element enc t (put_element enc t z ++ rest)
  = Some (roundElement round t z, rest).
Proof. destruct t; cbn; [apply u8_law | apply f32_law]. Qed.

Lemma row_law (t : DescriptorElementType) (width : nat) (row : list Z)
    (rest : list T) :
  (length row =? width)%nat && forallb (elementOK t) row = true ->
  get_n width (get_element enc t) (put_list (put_element enc t) row ++ rest)
  = Some (map (roundElement round t) row, rest).
Proof.
  intros H. apply andb_true_iff in H. destruct H as [Hlen Hrow].
  apply Nat.eqb_eq in Hlen. subst width.
  now apply (get_n_put_list _ _ (elementOK t)); [apply element_law|].
Qed.

Lemma keyPoint_law (kp : KeyPoint) (rest : list T) :
  keyPointOK kp = true ->
  get_keyPoint enc (put_keyPoint enc kp ++ rest) = Some (roundKeyPoint round kp, rest).
Proof.
  unfold keyPointOK, get_keyPoint, put_keyPoint. intros H.
  apply andb_true_iff in H. destruct H as [Hx Hy].
  rewrite <- app_assoc.
  rewrite (parser_bind_ok _ _ _ _ _ (f32_law _ _ Hx)).
  rewrite (parser_bind_ok _ _ _ _ _ (f32_law _ _ Hy)).
  reflexivity.
Qed.

Lemma point_law (p : option Point3f) (rest : list T) :
  pointOK p = true ->
  get_point enc (put_point enc p ++ rest) = Some (roundPoint round p, rest).
Proof.
  unfold pointOK, get_point, put_point. destruct p as [q|]; intros H.
  - apply andb_true_iff in H. destruct H as [H Hz].
    apply andb_true_iff in H. destruct H as [Hx Hy].
    rewrite <- !app_assoc.
    rewrite (parser_bind_ok _ _ _ _ _ (bool_law true _)).
    rewrite (parser_bind_ok _ _ _ _ _ (f32_law _ _ Hx)).
    rewrite (parser_bind_ok _ _ _ _ _ (f32_law _ _ Hy)).
    rewrite (parser_bind_ok _ _ _ _ _ (f32_law _ _ Hz)).
    reflexivity.
  - now rewrite (parser_bind_ok _ _ _ _ _ (bool_law false _)).
Qed.

Lemma image_law (kv : Z * TrainImage) (rest : list T) :
  imageOK kv = true ->
  get_image enc (put_image enc kv ++ rest) = Some (kv, rest).
Proof.
  destruct kv as [id [h w bitmap]]. unfold imageOK, get_image, put_image. cbn.
  rewrite !andb_true_iff.
  intros [[[[[[Hid Hh0] Hh1] Hw0] Hw1] Hlen] Hpix].
  apply Z.leb_le in Hh0, Hw0. apply Z.ltb_lt in Hh1, Hw1.
  apply Nat.eqb_eq in Hlen.
  rewrite <- !app_assoc.
  rewrite (parser_bind_ok _ _ _ _ _ (int_law _ _ Hid)).
  rewrite (parser_bind_ok _ _ _ _ _ (count_law (Z.to_nat h) _ ltac:(
    unfold countOK; apply Z.ltb_lt; lia))).
  rewrite (parser_bind_ok _ _ _ _ _ (count_law (Z.to_nat w) _ ltac:(
    unfold countOK; apply Z.ltb_lt; lia))).
  rewrite <- Hlen.
  rewrite (parser_bind_ok _ _ _ _ _
             (get_n_put_list _ _ in_u8 (fun z => z) u8_law bitmap rest Hpix)).
  rewrite map_id, !Z2Nat.id by assumption. reflexivity.
Qed.

Lemma has3DPoints_round (pts : list (option Point3f)) :
  has3DPoints (map (roundPoint round) pts) = has3DPoints pts.
Proof.
  unfold has3DPoints. induction pts as [|[q|] pts IH]; cbn; congruence.
Qed.

Lemma descriptorTypeOfCode_code (t : DescriptorElementType) :
  descriptorTypeOfCode (descriptorTypeCode t) = Some t.
Proof. now destruct t. Qed.

(** The store written in one mode and followed by anything is read back, its
    single-precision values as that mode re-reads them, and the rest is left
    over. *)
Lemma store_law (includeImages : bool) (s : Store) (rest : list T) :
  populated s = true ->
  deserialize enc (serialize enc includeImages s ++ rest)
  = Some (roundStore round (withImages includeImages s), rest).
Proof.
  unfold populated. rewrite !andb_true_iff.
  intros [[[[[[[[[[Hn Hd] Hp] Hi] Hw] Hrows] Hkps] Hpts] Hids] Hm] Himgs].
  apply Nat.eqb_eq in Hd, Hp, Hi.
  unfold serialize, deserialize. rewrite <- !app_assoc.
  rewrite (parser_bind_ok _ _ _ _ _ (int_law formatVersion _ eq_refl)).
  rewrite Z.eqb_refl, pguard_true_bind.
  rewrite (parser_bind_ok _ _ _ _ _ (count_law _ _ Hn)).
  rewrite (parser_bind_ok _ _ _ _ _
             (int_law (descriptorTypeCode (m_descriptorType s)) _
                ltac:(now destruct (m_descriptorType s)))).
  rewrite descriptorTypeOfCode_code.
  rewrite (parser_bind_ok _ _ _ _ _ (count_law _ _ Hw)).
  rewrite (parser_bind_ok _ _ _ _ _ (bool_law _ _)).
  rewrite (parser_bind_ok _ _ _ _ _ (bool_law _ _)).
  rewrite <- Hd at 1.
  rewrite (parser_bind_ok _ _ _ _ _
             (get_n_put_list _ _ _ _
                (row_law (m_descriptorType s) (descriptorWidth s))
                (m_trainDescriptors s) _ Hrows)).
  rewrite (parser_bind_ok _ _ _ _ _
             (get_n_put_list _ _ _ _ keyPoint_law (m_trainKeyPoints s) _ Hkps)).
  rewrite <- Hp at 1.
  rewrite (parser_bind_ok _ _ _ _ _
             (get_n_put_list _ _ _ _ point_law (m_trainPoints s) _ Hpts)).
  rewrite has3DPoints_round, eqb_reflx, pguard_true_bind.
  rewrite <- Hi at 1.
  rewrite (parser_bind_ok _ _ _ _ _
             (get_n_put_list _ _ in_int32 (fun z => z) int_law
                (m_trainImageIds s) _ Hids)).
  rewrite map_id.
  destruct includeImages.
  - rewrite <- app_assoc.
    rewrite (parser_bind_ok (get_count enc ≫= _) _ _ rest
               (map_to_list (m_mapOfImages s))).
    + cbn. unfold roundStore, withImages. cbn.
      now rewrite list_to_map_to_list.
    + rewrite (parser_bind_ok _ _ _ _ _ (count_law _ _ Hm)).
      rewrite (get_n_put_list _ _ imageOK (fun kv => kv) image_law _ _ Himgs).
      now rewrite map_id.
  - cbn. reflexivity.
Qed.

End RoundTrip.

(** *** The binary encoding *)

Lemma Z_of_byte_of_Z (z : Z) : Z_of_byte (byte_of_Z z) = Z.land z 255.
Proof.
  unfold Z_of_byte, byte_of_Z.
  assert (0 <= Z.land z 255 < 256) as Hb.
  { change 255 with (Z.ones 8). rewrite Z.land_ones by lia.
    apply Z.mod_pos_bound. lia. }
  destruct (Byte.of_N (Z.to_N (Z.land z 255))) as [b|] eqn:E.
  - apply Byte.to_of_N in E. rewrite E. lia.
  - apply Byte.of_N_None_iff in E. lia.
Qed.

Lemma le_value_le_bytes (n : nat) (z : Z) :
  le_value (le_bytes n z) = Z.land z (Z.ones (8 * Z.of_nat n)).
Proof.
  revert z. induction n as [|n IH]; intros z.
  - cbn. now rewrite Z.land_0_r.
  - cbn [le_bytes le_value]. rewrite IH, Z_of_byte_of_Z.
    change 255 with (Z.ones 8).
    apply Z.bits_inj'. intros i Hi.
    rewrite Z.lor_spec, !Z.land_spec, Z.shiftl_spec, !Z.testbit_ones_nonneg by lia.
    destruct (Z.ltb_spec i 8) as [H8|H8].
    + rewrite (Z.testbit_neg_r _ (i - 8)) by lia.
      destruct (Z.ltb_spec i (8 * Z.of_nat (S n))); [|lia].
      now rewrite orb_false_r.
    + rewrite Z.land_spec, Z.shiftr_spec, Z.testbit_ones_nonneg by lia.
      replace (i - 8 + 8) with i by lia.
      rewrite andb_false_r. cbn [orb].
      destruct (Z.ltb_spec (i - 8) (8 * Z.of_nat n));
        destruct (Z.ltb_spec i (8 * Z.of_nat (S n))); try lia; reflexivity.
Qed.

Lemma length_le_bytes (n : nat) (z : Z) : length (le_bytes n z) = n.
Proof. revert z. induction n as [|n IH]; intros z; cbn; [|rewrite IH]; reflexivity. Qed.

Lemma get_bytes_le_bytes (n : nat) (z : Z) (rest : list Byte.byte) :
  get_bytes n (le_bytes n z ++ rest) = Some (le_bytes n z, rest).
Proof.
  unfold get_bytes.
  destruct (Nat.leb_spec n (length (le_bytes n z ++ rest))) as [H|H].
  - rewrite <- (length_le_bytes n z) at 1 3.
    now rewrite take_app_length, drop_app_length.
  - rewrite length_app, length_le_bytes in H. lia.
Qed.

Lemma signed32_mod (z : Z) :
  in_int32 z = true -> signed32 (z mod 2 ^ 32) = z.
Proof.
  unfold in_int32, signed32. rewrite andb_true_iff, Z.leb_le, Z.ltb_lt.
  intros [Hlo Hhi]. destruct (Z_lt_le_dec z 0) as [Hneg|Hpos].
  - replace (z mod 2 ^ 32) with (z + 2 ^ 32).
    + destruct (Z.ltb_spec (z + 2 ^ 32) (2 ^ 31)); lia.
    + apply (Z.mod_unique_pos _ _ (-1)); lia.
  - rewrite Z.mod_small by lia.
    destruct (Z.ltb_spec z (2 ^ 31)); lia.
Qed.

Lemma binary_int_law (z : Z) (rest : list Byte.byte) :
  in_int32 z = true ->
  get_int binaryEncoding (put_int binaryEncoding z ++ rest) = Some (z, rest).
Proof.
  intros H. cbn [get_int put_int binaryEncoding].
  rewrite (parser_bind_ok _ _ _ _ _ (get_bytes_le_bytes 4 _ rest)).
  rewrite le_value_le_bytes. change (8 * Z.of_nat 4) with 32.
  rewrite Z.land_ones, Z.mod_mod, signed32_mod by (assumption || lia).
  reflexivity.
Qed.

Lemma binary_u8_law (z : Z) (rest : list Byte.byte) :
  in_u8 z = true ->
  get_u8 binaryEncoding (put_u8 binaryEncoding z ++ rest) = Some (z, rest).
Proof.
  unfold in_u8. rewrite andb_true_iff, Z.leb_le, Z.ltb_lt. intros H.
  cbn [get_u8 put_u8 binaryEncoding].
  rewrite (parser_bind_ok _ _ _ _ _ (get_bytes_le_bytes 1 _ rest)).
  rewrite le_value_le_bytes. change (8 * Z.of_nat 1) with 8.
  rewrite Z.land_ones, Z.mod_small by lia. reflexivity.
Qed.

Lemma binary_f32_law (f : float32) (rest : list Byte.byte) :
  in_u32 f = true ->
  get_f32 binaryEncoding (put_f32 binaryEncoding f ++ rest) = Some (f, rest).
Proof.
  unfold in_u32. rewrite andb_true_iff, Z.leb_le, Z.ltb_lt. intros H.
  cbn [get_f32 put_f32 binaryEncoding].
  rewrite (parser_bind_ok _ _ _ _ _ (get_bytes_le_bytes 4 _ rest)).
  rewrite le_value_le_bytes. change (8 * Z.of_nat 4) with 32.
  rewrite Z.land_ones, Z.mod_small by lia. reflexivity.
Qed.

(** *** The text encoding *)

Lemma parse_print_int (z : Z) : parse_int (print_int z) = Some z.
Proof.
  unfold parse_int, print_int.
  rewrite NilZero.isi.
  - cbn. now rewrite DecimalZ.of_to.
  - destruct z as [|p|p]; cbn; try discriminate.
    intros [= E]. exact (Unsigned.to_uint_nonnil p E).
  - destruct z as [|p|p]; cbn; try discriminate.
    intros [= E]. exact (Unsigned.to_uint_nonnil p E).
Qed.

(** *** Saving, then loading *)

Lemma roundStore_id (r : float32 -> float32) (s : Store) :
  (forall f, r f = f) -> roundStore r s = s.
Proof.
  intros Hr. destruct s as [kps t descs pts ids imgs]. unfold roundStore. cbn.
  f_equal.
  - rewrite <- (map_id kps) at 2. apply map_ext. intros [x y].
    unfold roundKeyPoint. cbn. now rewrite !Hr.
  - rewrite <- (map_id descs) at 2. apply map_ext. intros row.
    rewrite <- (map_id row) at 2. apply map_ext. intros z.
    destruct t; cbn; [reflexivity | apply Hr].
  - rewrite <- (map_id pts) at 2. apply map_ext. intros [[x y z]|]; cbn;
      [now rewrite !Hr | reflexivity].
Qed.

(** C1: a populated store saved by [saveLearningData] and loaded by
    [loadLearningData] in the same mode, with [append = false], comes back,
    with its training images when they were saved.  In binary mode the train
    data (key points, descriptors, object points, image ids) are as they
    were; in text mode they are as they were apart from the single-precision
    values, each of which is what the text mode re-reads of what it printed,
    the integer-valued parts (descriptor type, 8-bit descriptors, image ids,
    images) being untouched; a text mode that re-reads exactly gives the
    store back as it was. *)
Theorem learningData_roundtrip :
  forall (print_float : float32 -> string)
         (parse_float : string -> option float32)
         (reread : float32 -> float32),
    (forall f, in_u32 f = true -> parse_float (print_float f) = Some (reread f)) ->
    forall (filename : string) (saveTrainingImages : bool) (s current : Store)
           (fs : gmap string FileContents),
      populated s = true ->
      let save mode :=
        saveLearningData print_float parse_float filename mode
                         saveTrainingImages s fs in
      let load mode :=
        loadLearningData print_float parse_float filename mode false
                         (save mode) current in
      let expected := withImages saveTrainingImages s in
      load true = (Done tt, expected)
      /\ trainData (snd (load true)) = trainData s
      /\ load false = (Done tt, roundStore reread expected)
      /\ trainData (snd (load false)) = trainData (roundStore reread s)
      /\ m_descriptorType (roundStore reread expected) = m_descriptorType s
      /\ m_trainImageIds (roundStore reread expected) = m_trainImageIds s
      /\ m_mapOfImages (roundStore reread expected) = m_mapOfImages expected
      /\ (m_descriptorType s = CV_8U ->
            m_trainDescriptors (roundStore reread expected) = m_trainDescriptors s)
      /\ ((forall f, reread f = f) -> load false = (Done tt, expected)).
Proof.
  intros print_float parse_float reread Hfloat filename images s current fs Hs
         save load expected.
  assert (load true = (Done tt, expected)) as Hbin.
  { subst load save expected. unfold loadLearningData, saveLearningData.
    rewrite lookup_insert_eq. cbn [mbind option_bind readStore].
    rewrite <- (app_nil_r (serialize binaryEncoding images s)).
    rewrite (store_law binaryEncoding (fun f => f) binary_int_law binary_u8_law
               binary_f32_law images s [] Hs).
    cbn. now rewrite roundStore_id. }
  assert (load false = (Done tt, roundStore reread expected)) as Htxt.
  { subst load save expected. unfold loadLearningData, saveLearningData.
    rewrite lookup_insert_eq. cbn [mbind option_bind readStore].
    rewrite <- (app_nil_r (serialize (textEncoding print_float parse_float) images s)).
    rewrite (store_law (textEncoding print_float parse_float) reread); try assumption.
    - reflexivity.
    - intros z rest _. cbn. now rewrite parse_print_int.
    - intros z rest _. cbn. now rewrite parse_print_int.
    - intros f rest Hf. cbn. now rewrite (Hfloat f Hf). }
  split; [exact Hbin|]. split; [now rewrite Hbin|].
  split; [exact Htxt|]. split; [now rewrite Htxt|].
  split; [reflexivity|]. split; [reflexivity|]. split; [reflexivity|]. split.
  - intros Ht. subst expected. unfold roundStore, withImages. cbn. rewrite Ht.
    cbn. rewrite <- (map_id (m_trainDescriptors s)) at 2.
    apply map_ext. intros row. apply map_id.
  - intros Hid. rewrite Htxt. now rewrite roundStore_id.
Qed.

Lemma learningData_roundtrip_witness :
  let save mode :=
    saveLearningData print_float_coarse parse_float_coarse "learning.bin" mode
                     true sampleStore ∅ in
  let load mode :=
    loadLearningData print_float_coarse parse_float_coarse "learning.bin" mode
                     false (save mode) (emptyStore CV_8U) in
  load true = (Done tt, withImages true sampleStore)
  /\ load false = (Done tt, roundStore reread_coarse (withImages true sampleStore)).
Proof.
  cbn zeta.
  pose proof (learningData_roundtrip print_float_coarse parse_float_coarse
                reread_coarse
                (fun f _ => eq_trans
                   (f_equal (option_map (fun z => Z.shiftl z 8))
                            (parse_print_int (Z.shiftr f 8)))
                   eq_refl)
                "learning.bin" true sampleStore (emptyStore CV_8U) ∅
                ltac:(vm_compute; reflexivity)) as H.
  cbn zeta in H. destruct H as [H1 [_ [H2 _]]]. split; [exact H1 | exact H2].
Defined.

(** The text mode above loses the low bits of a position, nothing else; a
    truncated file is refused and the present store is kept. *)
Example learningData_runs :
  let fs := saveLearningData print_float_coarse parse_float_coarse "m.txt" false
                             false sampleStore ∅ in
  (m_trainKeyPoints
     (snd (loadLearningData print_float_coarse parse_float_coarse "m.txt" false
             false fs (emptyStore CV_8U)))
   = [mk_KeyPoint 1078529792 1065353216; mk_KeyPoint 1073741824 3212836864])
  /\ loadLearningData print_float_coarse parse_float_coarse "m.txt" false false
       (<["m.txt" := TextFile ["1"; "2"; "5"]]> ∅) sampleStore
     = (Fail CorruptFormatError, sampleStore)
  /\ loadLearningData print_float_coarse parse_float_coarse "m.txt" true false
       fs sampleStore
     = (Fail CorruptFormatError, sampleStore).
Proof. cbn zeta. repeat split; vm_compute; reflexivity. Qed.

(** ** Runs of the inline members *)

(** The setters on a sample object: refused and stored arguments. *)
Example setters_run :
  ret (setRansacIteration 0 sampleKeyPoint)
  = Throw (mk_vpException badValue
             "The number of iterations must be greater than zero.")
  /\ m_nbRansacIterations (self_after (setRansacIteration 0 sampleKeyPoint)) = 5
  /\ m_nbRansacIterations (self_after (setRansacIteration 200 sampleKeyPoint)) = 200
  /\ is_throw (ret (setRansacThreshold (-0)%float sampleKeyPoint)) = true
  /\ is_throw (ret (setMatchingFactorThreshold PrimFloat.nan sampleKeyPoint)) = true
  /\ m_ransacThreshold (self_after (setRansacThreshold 0.5%float sampleKeyPoint))
     = 0.5%float.
Proof. repeat split; reflexivity. Qed.

(** The covariance getter on the sample object, before and after both flags
    are set. *)
Example getCovarianceMatrix_runs :
  let k := set_m_covarianceMatrix [[1%float]] sampleKeyPoint in
  let both := setCovarianceComputation true;; setUseRansacVVS true in
  ret (getCovarianceMatrix k) = Ok []
  /\ cout (getCovarianceMatrix k) = [warn_not_computed]
  /\ ret (getCovarianceMatrix (self_after (setCovarianceComputation true k))) = Ok []
  /\ ret (getCovarianceMatrix (self_after (both k))) = Ok [[1%float]]
  /\ cout (getCovarianceMatrix (self_after (both k))) = [].
Proof. cbn zeta. repeat split; reflexivity. Qed.

(** The cross check reaches a brute-force matcher only while the
    nearest-neighbour flag is off. *)
Example setUseBruteForceCrossCheck_runs :
  let k := set_m_matcherName "BruteForce"
             (set_m_matcher (Some (mk_DescriptorMatcher ∅)) sampleKeyPoint) in
  let plain := self_after (setFilterMatchingType stdDistanceThreshold k) in
  let ratio := self_after (setFilterMatchingType ratioDistanceThreshold k) in
  (m_matcher (self_after (setUseBruteForceCrossCheck true plain))
   ≫= fun m => matcher_params m !! "crossCheck") = Some (ParamBool true)
  /\ self_after (setUseBruteForceCrossCheck true ratio) = ratio
  /\ self_after (setUseBruteForceCrossCheck true sampleKeyPoint) = sampleKeyPoint.
Proof. cbn zeta. repeat split; vm_compute; reflexivity. Qed.
